(** * PythonPOSServer: order lifecycle, pricing and broadcast core

    A shallow embedding of the pricing methods of [models/order.py] and
    [models/discount.py], the helpers of [utils/order_validation.py] and
    [utils/order_management.py], the order and payment routes, and the
    connection manager of [utils/websocket.py], followed by the properties
    the specification states about them. *)

From Stdlib Require Import ZArith QArith Qabs List String Bool Lia.
From Stdlib Require Import Permutation Sorted.
Import ListNotations.

Set Implicit Arguments.
Set Warnings "-register-all".

Local Open Scope string_scope.
Local Open Scope Z_scope.
Local Open Scope list_scope.

(** ** Python values shared by every module *)

(** Exceptions the embedded functions raise.  [AttributeError] carries
    the attribute that was looked up and [NameError] the name that is not
    bound; [HTTPException] carries the status code and the detail string
    of the FastAPI exception. *)
Inductive PyError : Type :=
  | ValueError (msg : string)
  | KeyError (key : string)
  | TypeError (msg : string)
  | RuntimeError (msg : string)
  | AttributeError (attribute : string)
  | NameError (name : string)
  | HTTPException (status_code : Z) (detail : string).

Inductive result (A : Type) : Type :=
  | Ok (a : A)
  | Raise (e : PyError).

Arguments Ok {A} a.
Arguments Raise {A} e.

(** Python [float] arithmetic.  The pricing code only composes these
    operations, so they are kept abstract: every theorem below holds for
    IEEE doubles as for any other carrier.  The single law is the one
    comparison fact the payment check relies on. *)
Class PyFloat : Type := {
  float : Type;
  of_int : Z -> float;
  fadd : float -> float -> float;
  fsub : float -> float -> float;
  fmul : float -> float -> float;
  fdiv : float -> float -> float;
  fabs : float -> float;
  round2 : float -> float;
  flt : float -> float -> bool;
  fge : float -> float -> bool;
  fge_not_flt : forall a b, fge a b = true -> flt a b = false
}.

Section Model.

Context {FP : PyFloat}.

(** [0.0] and [0.00] literals, and the integer [0] that [sum] starts from. *)
Definition f0 : float := of_int 0.

(** [sum(xs)]: left to right, starting from [0]. *)
Definition py_sum (xs : list float) : float := fold_left fadd xs f0.

(** [max(a, b)]: the first argument unless the second is strictly greater. *)
Definition py_max (a b : float) : float := if flt a b then b else a.

(** Truth value of an [Optional[int]]: [None] and [0] are false. *)
Definition truthy_int (x : option Z) : bool :=
  match x with
  | None => false
  | Some n => negb (Z.eqb n 0)
  end.

(** JSON-like values built by the [to_dict] methods; a datetime is kept as
    its number of seconds, standing for its [isoformat()] string. *)
Inductive JSON : Type :=
  | JNone
  | JBool (b : bool)
  | JInt (n : Z)
  | JFloat (x : float)
  | JStr (s : string)
  | JTime (t : Z)
  | JList (l : list JSON)
  | JDict (d : list (string * JSON)).

(** ** models/order.py, models/discount.py, models/system.py *)

Inductive OrderStatus : Type :=
  | PREP | READY | DONE | VOID | REFUNDED | PARTIALLY_REFUNDED.

Definition OrderStatus_value (s : OrderStatus) : string :=
  match s with
  | PREP => "prep"
  | READY => "ready"
  | DONE => "done"
  | VOID => "void"
  | REFUNDED => "refunded"
  | PARTIALLY_REFUNDED => "partially_refunded"
  end.

Definition OrderStatus_eqb (a b : OrderStatus) : bool :=
  match a, b with
  | PREP, PREP | READY, READY | DONE, DONE | VOID, VOID
  | REFUNDED, REFUNDED | PARTIALLY_REFUNDED, PARTIALLY_REFUNDED => true
  | _, _ => false
  end.

Definition OrderStatus_members : list OrderStatus :=
  [PREP; READY; DONE; VOID; REFUNDED; PARTIALLY_REFUNDED].

(** [OrderStatus(value)]: the member with that value, if any. *)
Definition OrderStatus_of_value (v : string) : option OrderStatus :=
  find (fun s => String.eqb (OrderStatus_value s) v) OrderStatus_members.

Inductive PaymentMethod : Type := CASH | CARD.

Definition PaymentMethod_value (p : PaymentMethod) : string :=
  match p with CASH => "cash" | CARD => "card" end.

Record CardFeeSettings : Type := {
  cfs_available : bool;
  percentage_amount : float;
  min_fee : float
}.

Record DiscountGroup : Type := {
  dg_name : string;
  dg_available : bool
}.

Record Discount : Type := {
  d_id : Z;
  d_group : DiscountGroup;
  d_name : string;
  d_amount : float;
  d_is_percentage : bool;
  d_sort_order : Z;
  d_available : bool
}.

Record OrderDiscount : Type := {
  discount_id : Z;
  amount_applied : float;
  od_name : string
}.

Record OrderItemMod : Type := {
  mod_id : Z;
  mod_price : float;
  mod_name : string
}.

Record OrderItem : Type := {
  oi_id : Z;
  item_id : Z;
  item_name : string;
  quantity : Z;
  item_price : float;
  mods_price : float;
  total_price : float;
  oi_notes : option string;
  mods : list OrderItemMod
}.

Record Order : Type := {
  o_id : Z;
  order_number : Z;
  staff_id : Z;
  staff_name : string;
  status : OrderStatus;
  subtotal : float;
  tax : float;
  card_fee : float;
  total : float;
  payment_method : option PaymentMethod;
  notes : option string;
  square_payment_id : option string;
  square_refund_id : option string;
  created_at : Z;
  ready_at : option Z;
  done_at : option Z;
  refunded_at : option Z;
  items : list OrderItem;
  discounts : list OrderDiscount
}.

(** Attribute assignments on an order. *)
Definition set_card_fee (o : Order) (v : float) : Order :=
  {| o_id := o_id o; order_number := order_number o; staff_id := staff_id o;
     staff_name := staff_name o; status := status o; subtotal := subtotal o;
     tax := tax o; card_fee := v; total := total o;
     payment_method := payment_method o; notes := notes o;
     square_payment_id := square_payment_id o;
     square_refund_id := square_refund_id o; created_at := created_at o;
     ready_at := ready_at o; done_at := done_at o;
     refunded_at := refunded_at o; items := items o;
     discounts := discounts o |}.

Definition set_total (o : Order) (v : float) : Order :=
  {| o_id := o_id o; order_number := order_number o; staff_id := staff_id o;
     staff_name := staff_name o; status := status o; subtotal := subtotal o;
     tax := tax o; card_fee := card_fee o; total := v;
     payment_method := payment_method o; notes := notes o;
     square_payment_id := square_payment_id o;
     square_refund_id := square_refund_id o; created_at := created_at o;
     ready_at := ready_at o; done_at := done_at o;
     refunded_at := refunded_at o; items := items o;
     discounts := discounts o |}.

Definition set_discounts (o : Order) (v : list OrderDiscount) : Order :=
  {| o_id := o_id o; order_number := order_number o; staff_id := staff_id o;
     staff_name := staff_name o; status := status o; subtotal := subtotal o;
     tax := tax o; card_fee := card_fee o; total := total o;
     payment_method := payment_method o; notes := notes o;
     square_payment_id := square_payment_id o;
     square_refund_id := square_refund_id o; created_at := created_at o;
     ready_at := ready_at o; done_at := done_at o;
     refunded_at := refunded_at o; items := items o;
     discounts := v |}.

Definition set_status (o : Order) (v : OrderStatus) : Order :=
  {| o_id := o_id o; order_number := order_number o; staff_id := staff_id o;
     staff_name := staff_name o; status := v; subtotal := subtotal o;
     tax := tax o; card_fee := card_fee o; total := total o;
     payment_method := payment_method o; notes := notes o;
     square_payment_id := square_payment_id o;
     square_refund_id := square_refund_id o; created_at := created_at o;
     ready_at := ready_at o; done_at := done_at o;
     refunded_at := refunded_at o; items := items o;
     discounts := discounts o |}.

Definition set_payment_method (o : Order) (v : option PaymentMethod) : Order :=
  {| o_id := o_id o; order_number := order_number o; staff_id := staff_id o;
     staff_name := staff_name o; status := status o; subtotal := subtotal o;
     tax := tax o; card_fee := card_fee o; total := total o;
     payment_method := v; notes := notes o;
     square_payment_id := square_payment_id o;
     square_refund_id := square_refund_id o; created_at := created_at o;
     ready_at := ready_at o; done_at := done_at o;
     refunded_at := refunded_at o; items := items o;
     discounts := discounts o |}.

Definition set_done_at (o : Order) (v : option Z) : Order :=
  {| o_id := o_id o; order_number := order_number o; staff_id := staff_id o;
     staff_name := staff_name o; status := status o; subtotal := subtotal o;
     tax := tax o; card_fee := card_fee o; total := total o;
     payment_method := payment_method o; notes := notes o;
     square_payment_id := square_payment_id o;
     square_refund_id := square_refund_id o; created_at := created_at o;
     ready_at := ready_at o; done_at := v;
     refunded_at := refunded_at o; items := items o;
     discounts := discounts o |}.

(** [Discount.calculate_discount_amount] *)
Definition Discount_calculate_discount_amount
    (self : Discount) (subtotal_ : float) : float :=
  if negb (d_available self) || negb (dg_available (d_group self))
  then f0
  else if d_is_percentage self
       then round2 (fdiv (fmul subtotal_ (d_amount self)) (of_int 100))
       else fabs (d_amount self).

(** [Order.get_total_discount] *)
Definition Order_get_total_discount (self : Order) : float :=
  py_sum (map amount_applied (discounts self)).

(** [Order.calculate_card_fee]; [settings] is the result of
    [db_session.query(CardFeeSettings).first()]. *)
Definition Order_calculate_card_fee
    (self : Order) (settings : option CardFeeSettings) : Order :=
  match payment_method self with
  | Some CARD =>
      match settings with
      | Some s =>
          if cfs_available s
          then
            let base_amount :=
              fadd (fsub (subtotal self) (Order_get_total_discount self))
                   (tax self) in
            let calculated_fee :=
              py_max (fmul base_amount (percentage_amount s)) (min_fee s) in
            set_card_fee self (round2 calculated_fee)
          else set_card_fee self f0
      | None => set_card_fee self f0
      end
  | _ => set_card_fee self f0
  end.

(** [Order.calculate_total] *)
Definition Order_calculate_total
    (self : Order) (settings : option CardFeeSettings) : Order :=
  let total_discount := Order_get_total_discount self in
  let base_total := fadd (fsub (subtotal self) total_discount) (tax self) in
  let self1 := Order_calculate_card_fee self settings in
  set_total self1 (round2 (fadd base_total (card_fee self1))).

(** The constructor call [OrderDiscount(order_id=..., ...)] inside
    [models/order.py].  Of the models the module imports [Base] and
    [CardFeeSettings] only, and it names the class in
    [relationship("OrderDiscount", ...)] as a string, so the name
    [OrderDiscount] is bound nowhere in it and the call raises [NameError]
    before a record is built. *)
Definition new_OrderDiscount
    (discount_id_ : Z) (amount_applied_ : float) (name_ : string)
    : result OrderDiscount :=
  Raise (NameError "OrderDiscount").

(** [Order.apply_discount]: the order after the call and what the call
    returns or raises. *)
Definition Order_apply_discount
    (self : Order) (discount : Discount) (settings : option CardFeeSettings)
    : Order * result bool :=
  if negb (d_available discount) || negb (dg_available (d_group discount))
  then (self, Ok false)
  else
    let discount_amount :=
      Discount_calculate_discount_amount discount (subtotal self) in
    match new_OrderDiscount (d_id discount) discount_amount
                            (d_name discount) with
    | Raise e => (self, Raise e)
    | Ok order_discount =>
        let self1 := set_discounts self (discounts self ++ [order_discount]) in
        (Order_calculate_total self1 settings, Ok true)
    end.

(** ** utils/order_validation.py: validate_payment *)

Definition validate_payment
    (payment_method_ : string) (total_ : float) (cash_tendered : option float)
    : result float :=
  if String.eqb payment_method_ "cash" then
    match cash_tendered with
    | None =>
        Raise (ValueError "Cash tendered amount is required for cash payments")
    | Some c =>
        if flt c total_
        then Raise (ValueError "Insufficient cash tendered")
        else Ok (fsub c total_)
    end
  else if String.eqb payment_method_ "card" then
    match cash_tendered with
    | Some _ =>
        Raise (ValueError
                 "Cash tendered should not be provided for card payments")
    | None => Ok f0
    end
  else Raise (ValueError "Invalid payment method").

(** ** The [to_dict] methods *)

Definition json_opt_str (x : option string) : JSON :=
  match x with Some s => JStr s | None => JNone end.

Definition json_opt_time (x : option Z) : JSON :=
  match x with Some t => JTime t | None => JNone end.

(** [OrderItemMod.to_dict] *)
Definition OrderItemMod_to_dict (self : OrderItemMod) : JSON :=
  JDict [("mod_id", JInt (mod_id self));
         ("name", JStr (mod_name self));
         ("price", JFloat (mod_price self))].

(** [OrderItem.to_dict]; [item_name] is [self.item.name]. *)
Definition OrderItem_to_dict (self : OrderItem) : JSON :=
  JDict [("item_id", JInt (item_id self));
         ("name", JStr (item_name self));
         ("quantity", JInt (quantity self));
         ("item_price", JFloat (item_price self));
         ("mods_price", JFloat (mods_price self));
         ("total_price", JFloat (total_price self));
         ("notes", json_opt_str (oi_notes self));
         ("mods", JList (map OrderItemMod_to_dict (mods self)))].

(** [OrderDiscount.to_dict] *)
Definition OrderDiscount_to_dict (self : OrderDiscount) : JSON :=
  JDict [("discount_id", JInt (discount_id self));
         ("name", JStr (od_name self));
         ("amount_applied", JFloat (amount_applied self))].

(** [(a - b).total_seconds() if a and b else None] *)
Definition json_elapsed (a : option Z) (b : option Z) : JSON :=
  match a, b with
  | Some x, Some y => JFloat (of_int (x - y))
  | _, _ => JNone
  end.

(** [Order.to_dict], as a list of key/value pairs in source order. *)
Definition Order_to_dict (self : Order) : list (string * JSON) :=
  [("order_id", JInt (o_id self));
   ("order_number", JInt (order_number self));
   ("status", JStr (OrderStatus_value (status self)));
   ("subtotal", JFloat (subtotal self));
   ("discounts", JList (map OrderDiscount_to_dict (discounts self)));
   ("total_discount", JFloat (Order_get_total_discount self));
   ("tax", JFloat (tax self));
   ("card_fee", JFloat (card_fee self));
   ("total", JFloat (total self));
   ("payment_method",
      match payment_method self with
      | Some p => JStr (PaymentMethod_value p)
      | None => JNone
      end);
   ("notes", json_opt_str (notes self));
   ("created_at", JTime (created_at self));
   ("ready_at", json_opt_time (ready_at self));
   ("done_at", json_opt_time (done_at self));
   ("refunded_at", json_opt_time (refunded_at self));
   ("items", JList (map OrderItem_to_dict (items self)));
   ("prep_time", json_elapsed (ready_at self) (Some (created_at self)));
   ("ready_time", json_elapsed (done_at self) (ready_at self));
   ("total_time", json_elapsed (done_at self) (Some (created_at self)))].

(** ** OrderHistory and the database *)

Record OrderHistory : Type := {
  h_order_id : Z;
  h_order_number : Z;
  h_staff_id : Z;
  h_staff_name : string;
  h_status : OrderStatus;
  h_subtotal : float;
  h_tax : float;
  h_card_fee : float;
  h_total : float;
  h_payment_method : option PaymentMethod;
  h_notes : option string;
  h_square_payment_id : option string;
  h_square_refund_id : option string;
  h_created_at : Z;
  h_ready_at : option Z;
  h_done_at : option Z;
  h_refunded_at : option Z;
  h_archived_at : option Z;
  items_data : list JSON;
  discounts_data : list JSON
}.

(** [OrderHistory.from_order]; [archived_at] is left to its server default. *)
Definition OrderHistory_from_order (order : Order) : OrderHistory :=
  {| h_order_id := o_id order;
     h_order_number := order_number order;
     h_staff_id := staff_id order;
     h_staff_name := staff_name order;
     h_status := status order;
     h_subtotal := subtotal order;
     h_tax := tax order;
     h_card_fee := card_fee order;
     h_total := total order;
     h_payment_method := payment_method order;
     h_notes := notes order;
     h_square_payment_id := square_payment_id order;
     h_square_refund_id := square_refund_id order;
     h_created_at := created_at order;
     h_ready_at := ready_at order;
     h_done_at := done_at order;
     h_refunded_at := refunded_at order;
     h_archived_at := None;
     items_data := map OrderItem_to_dict (items order);
     discounts_data := map OrderDiscount_to_dict (discounts order) |}.

(** The [archived_at] column takes [func.now()] when the row is inserted. *)
Definition insert_history (now : Z) (h : OrderHistory) : OrderHistory :=
  {| h_order_id := h_order_id h; h_order_number := h_order_number h;
     h_staff_id := h_staff_id h; h_staff_name := h_staff_name h;
     h_status := h_status h; h_subtotal := h_subtotal h; h_tax := h_tax h;
     h_card_fee := h_card_fee h; h_total := h_total h;
     h_payment_method := h_payment_method h; h_notes := h_notes h;
     h_square_payment_id := h_square_payment_id h;
     h_square_refund_id := h_square_refund_id h;
     h_created_at := h_created_at h; h_ready_at := h_ready_at h;
     h_done_at := h_done_at h; h_refunded_at := h_refunded_at h;
     h_archived_at := Some now;
     items_data := items_data h; discounts_data := discounts_data h |}.

Record Database : Type := {
  tbl_orders : list Order;
  tbl_order_history : list OrderHistory;
  tbl_card_fee_settings : list CardFeeSettings;
  tbl_discounts : list Discount
}.

(** [db.query(CardFeeSettings).first()] *)
Definition query_card_fee_settings (db : Database) : option CardFeeSettings :=
  hd_error (tbl_card_fee_settings db).

(** ** utils/order_validation.py: calculate_order_totals *)

(** [item.calculate_subtotal()]: class [OrderItem] of [models/order.py]
    declares its columns, its relationships and [to_dict], and no
    [calculate_subtotal]; the attribute lookup raises. *)
Definition OrderItem_calculate_subtotal (self : OrderItem) : result float :=
  Raise (AttributeError "calculate_subtotal").

(** [sum(f(x) for x in xs)] where [f] may raise: the sum stops at the
    first exception. *)
Fixpoint sum_of {A} (f : A -> result float) (xs : list A) (acc : float)
    : result float :=
  match xs with
  | [] => Ok acc
  | x :: rest =>
      match f x with
      | Raise e => Raise e
      | Ok v => sum_of f rest (fadd acc v)
      end
  end.

(** The dictionary [calculate_order_totals] returns. *)
Record OrderTotals : Type := {
  t_subtotal : float;
  t_discount_amount : float;
  t_total_after_discount : float;
  t_card_fee_amount : float;
  t_tip_amount : float;
  t_total : float
}.

(** [calculate_order_totals].  Two of its queries cannot be built:
    [Discount.active] names a column that class [Discount] of
    [models/discount.py] does not have (its columns are [id], [group_id],
    [name], [amount], [is_percentage], [sort_order] and [available]), and
    [CardFee] is a class the models package does not declare.  Each raises
    as soon as its identifier is given, before any row is read, so the
    blocks under [if discount:] and [if card_fee:] never run. *)
Definition calculate_order_totals
    (db : Database) (order : Order)
    (discount_id_ : option Z) (card_fee_id : option Z) (tip_amount : float)
    : result OrderTotals :=
  match sum_of OrderItem_calculate_subtotal (items order) f0 with
  | Raise e => Raise e
  | Ok subtotal_ =>
      let discount_resolved :=
        if truthy_int discount_id_
        then Raise (AttributeError "active")
        else Ok f0 in
      match discount_resolved with
      | Raise e => Raise e
      | Ok discount_amount =>
          let total_after_discount := fsub subtotal_ discount_amount in
          let card_fee_resolved :=
            if truthy_int card_fee_id
            then Raise (NameError "CardFee")
            else Ok f0 in
          match card_fee_resolved with
          | Raise e => Raise e
          | Ok card_fee_amount =>
              let final_total :=
                fadd (fadd total_after_discount card_fee_amount)
                     tip_amount in
              Ok {| t_subtotal := subtotal_;
                    t_discount_amount := discount_amount;
                    t_total_after_discount := total_after_discount;
                    t_card_fee_amount := card_fee_amount;
                    t_tip_amount := tip_amount;
                    t_total := final_total |}
          end
      end
  end.

(** ** utils/order_validation.py: get_next_order_number *)

(** [datetime.utcnow().replace(hour=0, minute=0, second=0, microsecond=0)],
    with instants counted in seconds. *)
Definition today_start (now : Z) : Z := now - now mod 86400.

(** The [order_number] of
    [query(Order).filter(created_at >= today_start)
       .order_by(Order.order_number.desc()).first()]. *)
Definition last_order_number (db : Database) (now : Z) : option Z :=
  match map order_number
            (filter (fun o => today_start now <=? created_at o)
                    (tbl_orders db)) with
  | [] => None
  | n :: ns => Some (fold_left Z.max ns n)
  end.

Definition get_next_order_number (db : Database) (now : Z) : Z :=
  match last_order_number db now with
  | None => 1
  | Some last =>
      let next_number := last + 1 in
      if 99 <? next_number then 1 else next_number
  end.

(** ** utils/order_management.py *)

Definition is_active (s : OrderStatus) : bool :=
  existsb (OrderStatus_eqb s) [PREP; READY].

Definition is_completed (s : OrderStatus) : bool :=
  existsb (OrderStatus_eqb s) [DONE; VOID; REFUNDED; PARTIALLY_REFUNDED].

Definition validate_order_number (db : Database) (order_number_ : Z) : bool :=
  match find (fun o => (order_number o =? order_number_)
                       && is_active (status o))
             (tbl_orders db) with
  | None => true
  | Some _ => false
  end.

(** The rows [archive_completed_orders] selects. *)
Definition completed_orders (db : Database) (now : Z) : list Order :=
  let cutoff_time := now - 24 * 3600 in
  filter (fun o => is_completed (status o) && (created_at o <? cutoff_time))
         (tbl_orders db).

(** [db.delete(order)]: the row with that primary key leaves the table. *)
Definition delete_order (order : Order) (rows : list Order) : list Order :=
  filter (fun o => negb (o_id o =? o_id order)) rows.

(** [archive_completed_orders]: the database after the commit and the
    number of orders archived. *)
Definition archive_completed_orders (db : Database) (now : Z)
    : Database * Z :=
  let completed := completed_orders db now in
  let archives := map (fun o => insert_history now (OrderHistory_from_order o))
                      completed in
  let archived_count := Z.of_nat (List.length completed) in
  if 0 <? archived_count then
    ({| tbl_orders := fold_left (fun rows o => delete_order o rows)
                                completed (tbl_orders db);
        tbl_order_history := tbl_order_history db ++ archives;
        tbl_card_fee_settings := tbl_card_fee_settings db;
        tbl_discounts := tbl_discounts db |},
     archived_count)
  else (db, archived_count).

(** ** utils/websocket.py: ConnectionManager *)

Inductive ClientType : Type := POS | CUSTOMER_DISPLAY | KITCHEN_DISPLAY.

(** A Python [dict] with string keys: pairs in insertion order. *)
Definition dict (V : Type) : Type := list (string * V).

Definition dict_contains {V} (k : string) (d : dict V) : bool :=
  existsb (fun kv => String.eqb (fst kv) k) d.

Definition dict_get {V} (k : string) (d : dict V) : option V :=
  option_map snd (find (fun kv => String.eqb (fst kv) k) d).

(** [del d[k]] *)
Definition dict_del {V} (k : string) (d : dict V) : dict V :=
  filter (fun kv => negb (String.eqb (fst kv) k)) d.

(** [d[k] = v]: an existing key keeps its place, a new one goes last. *)
Fixpoint dict_set {V} (k : string) (v : V) (d : dict V) : dict V :=
  match d with
  | [] => [(k, v)]
  | (k', v') :: rest =>
      if String.eqb k' k then (k, v) :: rest
      else (k', v') :: dict_set k v rest
  end.

(** A Python [set] of order ids. *)
Definition set_contains (x : Z) (s : list Z) : bool := existsb (Z.eqb x) s.

Definition set_add (x : Z) (s : list Z) : list Z :=
  if set_contains x s then s else s ++ [x].

Definition set_discard (x : Z) (s : list Z) : list Z :=
  filter (fun y => negb (Z.eqb x y)) s.

(** A client socket; [send_json] raises on one that is no longer open. *)
Record WebSocket : Type := {
  ws_open : bool
}.

Record ConnectionManager : Type := {
  conn_pos : dict WebSocket;
  conn_customer_display : dict WebSocket;
  conn_kitchen_display : dict WebSocket;
  active_orders : dict (list Z)
}.

(** [ConnectionManager.__init__] *)
Definition ConnectionManager_init : ConnectionManager :=
  {| conn_pos := []; conn_customer_display := [];
     conn_kitchen_display := []; active_orders := [] |}.

(** [self.connections[client_type]] *)
Definition connections (m : ConnectionManager) (t : ClientType)
    : dict WebSocket :=
  match t with
  | POS => conn_pos m
  | CUSTOMER_DISPLAY => conn_customer_display m
  | KITCHEN_DISPLAY => conn_kitchen_display m
  end.

Definition set_connections
    (m : ConnectionManager) (t : ClientType) (d : dict WebSocket)
    : ConnectionManager :=
  match t with
  | POS =>
      {| conn_pos := d;
         conn_customer_display := conn_customer_display m;
         conn_kitchen_display := conn_kitchen_display m;
         active_orders := active_orders m |}
  | CUSTOMER_DISPLAY =>
      {| conn_pos := conn_pos m;
         conn_customer_display := d;
         conn_kitchen_display := conn_kitchen_display m;
         active_orders := active_orders m |}
  | KITCHEN_DISPLAY =>
      {| conn_pos := conn_pos m;
         conn_customer_display := conn_customer_display m;
         conn_kitchen_display := d;
         active_orders := active_orders m |}
  end.

Definition set_active_orders
    (m : ConnectionManager) (a : dict (list Z)) : ConnectionManager :=
  {| conn_pos := conn_pos m;
     conn_customer_display := conn_customer_display m;
     conn_kitchen_display := conn_kitchen_display m;
     active_orders := a |}.

(** [ConnectionManager.connect] *)
Definition connect
    (m : ConnectionManager) (websocket : WebSocket)
    (client_type : ClientType) (client_id : string) : ConnectionManager :=
  let m1 := set_connections m client_type
              (dict_set client_id websocket (connections m client_type)) in
  set_active_orders m1 (dict_set client_id [] (active_orders m1)).

(** [ConnectionManager.disconnect] *)
Definition disconnect
    (m : ConnectionManager) (client_type : ClientType) (client_id : string)
    : ConnectionManager :=
  let m1 :=
    if dict_contains client_id (connections m client_type)
    then set_connections m client_type
           (dict_del client_id (connections m client_type))
    else m in
  if dict_contains client_id (active_orders m1)
  then set_active_orders m1 (dict_del client_id (active_orders m1))
  else m1.

(** [ConnectionManager.add_active_order] *)
Definition add_active_order
    (m : ConnectionManager) (client_id : string) (order_id : Z)
    : ConnectionManager :=
  match dict_get client_id (active_orders m) with
  | Some orders =>
      set_active_orders m
        (dict_set client_id (set_add order_id orders) (active_orders m))
  | None => m
  end.

(** [ConnectionManager.remove_active_order] *)
Definition remove_active_order
    (m : ConnectionManager) (client_id : string) (order_id : Z)
    : ConnectionManager :=
  match dict_get client_id (active_orders m) with
  | Some orders =>
      set_active_orders m
        (dict_set client_id (set_discard order_id orders) (active_orders m))
  | None => m
  end.

(** One message received by one client. *)
Record Delivery : Type := {
  to_type : ClientType;
  to_id : string;
  message : dict JSON
}.

(** [connection.send_json(message)] *)
Definition send_json (connection : WebSocket) : result unit :=
  if ws_open connection then Ok tt
  else Raise (RuntimeError "WebSocket is not connected").

(** The loop of [broadcast_to_type]: the deliveries made and the clients
    whose send raised, both in iteration order. *)
Fixpoint broadcast_loop
    (client_type : ClientType) (msg : dict JSON) (clients : dict WebSocket)
    : list Delivery * list (ClientType * string) :=
  match clients with
  | [] => ([], [])
  | (client_id, connection) :: rest =>
      let (sent, disconnected) := broadcast_loop client_type msg rest in
      match send_json connection with
      | Ok _ =>
          ({| to_type := client_type; to_id := client_id; message := msg |}
             :: sent, disconnected)
      | Raise _ => (sent, (client_type, client_id) :: disconnected)
      end
  end.

(** [ConnectionManager.broadcast_to_type] *)
Definition broadcast_to_type
    (m : ConnectionManager) (client_type : ClientType) (msg : dict JSON)
    : ConnectionManager * list Delivery :=
  let (sent, disconnected) :=
    broadcast_loop client_type msg (connections m client_type) in
  (fold_left (fun m' tc => disconnect m' (fst tc) (snd tc)) disconnected m,
   sent).

(** [ConnectionManager.send_to_client] *)
Definition send_to_client
    (m : ConnectionManager) (client_type : ClientType) (client_id : string)
    (msg : dict JSON) : ConnectionManager * list Delivery :=
  match dict_get client_id (connections m client_type) with
  | Some connection =>
      match send_json connection with
      | Ok _ =>
          (m, [{| to_type := client_type; to_id := client_id;
                  message := msg |}])
      | Raise _ => (disconnect m client_type client_id, [])
      end
  | None => (m, [])
  end.

(** [order_id in orders] for the value stored under ["id"]. *)
Definition json_in_set (order_id : JSON) (orders : list Z) : bool :=
  match order_id with
  | JInt n => set_contains n orders
  | _ => false
  end.

(** The loop of [broadcast_order_update] over [self.active_orders.items()].
    A failed send disconnects the client, which deletes its entry from the
    dictionary being iterated: the iterator then raises [RuntimeError]. *)
Fixpoint customer_display_loop
    (size : nat) (order_id : JSON) (msg : dict JSON)
    (entries : dict (list Z)) (m : ConnectionManager)
    : ConnectionManager * list Delivery * result unit :=
  match entries with
  | [] => (m, [], Ok tt)
  | (client_id, orders) :: rest =>
      if json_in_set order_id orders then
        let (m1, sent) := send_to_client m CUSTOMER_DISPLAY client_id msg in
        if Nat.eqb (List.length (active_orders m1)) size then
          match customer_display_loop size order_id msg rest m1 with
          | (m2, sent2, r) => (m2, sent ++ sent2, r)
          end
        else
          (m1, sent,
           Raise (RuntimeError "dictionary changed size during iteration"))
      else customer_display_loop size order_id msg rest m
  end.

Definition json_is_str (v : option JSON) (s : string) : bool :=
  match v with
  | Some (JStr s') => String.eqb s' s
  | _ => false
  end.

(** [ConnectionManager.broadcast_order_update]: the manager afterwards, the
    deliveries made, and whether the call returned or raised. *)
Definition broadcast_order_update
    (m : ConnectionManager) (order_data : dict JSON)
    : ConnectionManager * list Delivery * result unit :=
  match dict_get "id" order_data with
  | None => (m, [], Raise (KeyError "id"))
  | Some order_id =>
      let msg := [("type", JStr "order_update"); ("data", JDict order_data)] in
      let (m1, sent_pos) := broadcast_to_type m POS msg in
      match customer_display_loop (List.length (active_orders m1))
                                  order_id msg (active_orders m1) m1 with
      | (m2, sent_cd, Raise e) => (m2, sent_pos ++ sent_cd, Raise e)
      | (m2, sent_cd, Ok _) =>
          if json_is_str (dict_get "status" order_data) "open" then
            let (m3, sent_kd) := broadcast_to_type m2 KITCHEN_DISPLAY msg in
            (m3, sent_pos ++ sent_cd ++ sent_kd, Ok tt)
          else (m2, sent_pos ++ sent_cd, Ok tt)
      end
  end.

(** ** routes/order.py and routes/payment.py *)

(** [db.query(Order).filter(Order.id == order_id).first()] *)
Definition query_order (db : Database) (order_id : Z) : option Order :=
  find (fun o => o_id o =? order_id) (tbl_orders db).

(** [db.query(Discount).filter(Discount.id == discount_id).first()] *)
Definition query_discount (db : Database) (discount_id_ : Z)
    : option Discount :=
  find (fun d => d_id d =? discount_id_) (tbl_discounts db).

(** [db.commit()] after attribute assignments on a loaded order. *)
Definition commit_order (db : Database) (order : Order) : Database :=
  {| tbl_orders :=
       map (fun o => if o_id o =? o_id order then order else o)
           (tbl_orders db);
     tbl_order_history := tbl_order_history db;
     tbl_card_fee_settings := tbl_card_fee_settings db;
     tbl_discounts := tbl_discounts db |}.

(** Message text of an exception, as [str(e)] gives it; a [KeyError]
    shows its key in quotes. *)
Definition PyError_str (e : PyError) : string :=
  match e with
  | ValueError s | TypeError s | RuntimeError s => s
  | KeyError s => "'" ++ s ++ "'"
  | AttributeError s | NameError s => s
  | HTTPException _ s => s
  end.

(** [except Exception as e: raise HTTPException(status_code=500, ...)] *)
Definition except_Exception (e : PyError) : PyError :=
  HTTPException 500 (PyError_str e).

(** The status and payment routes call
    [manager.broadcast_order_update(order.id, status)] with two arguments,
    where the method is declared with one: Python raises [TypeError] before
    the body runs. *)
Definition broadcast_order_update_two_arguments : PyError :=
  TypeError "ConnectionManager.broadcast_order_update() takes 2 positional arguments but 3 were given".

(** *** Item and discount routes *)

(** The request bodies [OrderItemData] and [OrderUpdate]. *)
Record OrderItemData : Type := {
  oid_item_id : Z;
  oid_quantity : Z;
  oid_mods : list (Z * Z)
}.

Record OrderUpdate : Type := {
  ou_status : option OrderStatus;
  ou_notes : option string;
  ou_payment_method : option PaymentMethod;
  ou_tip_amount : option float
}.

(** Routes [add_item], [remove_item] and [update_order]: the response and
    the database after the request.  Each loads the order and then
    evaluates the guard [if order.status != OrderStatus.OPEN].  The
    enumeration [OrderStatus] has the members PREP, READY, DONE, VOID,
    REFUNDED and PARTIALLY_REFUNDED: looking up [OPEN] raises, whatever the
    status of the order, and nothing below the guard runs. *)
Definition add_item (db : Database) (order_id : Z) (item : OrderItemData)
    : result JSON * Database :=
  match query_order db order_id with
  | None => (Raise (HTTPException 404 "Order not found"), db)
  | Some order => (Raise (AttributeError "OPEN"), db)
  end.

Definition remove_item (db : Database) (order_id item_id_ : Z)
    : result JSON * Database :=
  match query_order db order_id with
  | None => (Raise (HTTPException 404 "Order not found"), db)
  | Some order => (Raise (AttributeError "OPEN"), db)
  end.

Definition update_order (db : Database) (order_id : Z)
    (order_data : OrderUpdate) : result JSON * Database :=
  match query_order db order_id with
  | None => (Raise (HTTPException 404 "Order not found"), db)
  | Some order => (Raise (AttributeError "OPEN"), db)
  end.

(** Route [apply_discount].  The route has no [try]: what
    [Order.apply_discount] raises leaves the handler, and the commit is not
    reached. *)
Definition apply_discount (db : Database) (order_id discount_id_ : Z)
    : result JSON * Database :=
  match query_order db order_id with
  | None => (Raise (HTTPException 404 "Order not found"), db)
  | Some order =>
      match query_discount db discount_id_ with
      | None => (Raise (HTTPException 404 "Discount not found"), db)
      | Some discount =>
          match Order_apply_discount order discount
                                     (query_card_fee_settings db) with
          | (_, Raise e) => (Raise e, db)
          | (order', Ok applied) =>
              if negb applied
              then (Raise (HTTPException 400 "Failed to apply discount"), db)
              else (Ok (JDict (Order_to_dict order')), commit_order db order')
          end
      end
  end.

(** Route [remove_discount].  [routes/order.py] imports [Staff], [Order],
    [OrderItem], [Item], [Discount], [CardFee], [OrderStatus],
    [PaymentMethod] and [get_db] from the models: [OrderDiscount] is not
    among them, and [db.query(OrderDiscount)] raises [NameError]. *)
Definition remove_discount (db : Database) (order_id discount_id_ : Z)
    : result JSON * Database :=
  match query_order db order_id with
  | None => (Raise (HTTPException 404 "Order not found"), db)
  | Some order => (Raise (NameError "OrderDiscount"), db)
  end.

(** *** Status routes *)



(** *** Payment routes *)

(** [payment.payment_details]: the keys the payment route reads. *)
Record PaymentDetails : Type := {
  source_id : option string;
  pd_cash_tendered : option float;
  pd_tip_amount : option float
}.

Record PaymentRequest : Type := {
  pr_order_id : Z;
  pr_amount : float;
  pr_payment_method : string;
  payment_details : PaymentDetails
}.


(** The card branch calls
    [process_card_payment(source_id=..., amount=..., order_id=...,
    order_number=...)], where [utils/square.py] declares
    [process_card_payment(amount, source_id, location_id)]: the call
    raises [TypeError] and the gateway is not contacted. *)
Definition process_card_payment_keywords : PyError :=
  TypeError "process_card_payment() got an unexpected keyword argument 'order_id'".


(** Route [process_payment].  [internet] is the answer of
    [network_manager.enable_internet()], [now] the value of
    [datetime.utcnow()]. *)
Definition process_payment
    (db : Database) (payment : PaymentRequest) (internet : bool) (now : Z)
    : result JSON * Database :=
  match query_order db (pr_order_id payment) with
  | None => (Raise (HTTPException 404 "Order not found"), db)
  | Some order =>
      if OrderStatus_eqb (status order) DONE
      then (Raise (HTTPException 400 "Order is already paid"), db)
      else if String.eqb (pr_payment_method payment) "card" then
        if negb internet
        then (Raise (except_Exception
                (HTTPException 503 "Failed to establish internet connection")),
              db)
        else
          match source_id (payment_details payment) with
          | None => (Raise (except_Exception (KeyError "source_id")), db)
          | Some _ =>
              (Raise (except_Exception process_card_payment_keywords), db)
          end
      else if String.eqb (pr_payment_method payment) "cash" then
        match pd_cash_tendered (payment_details payment) with
        | None =>
            (Raise (except_Exception
                      (HTTPException 400 "Cash tendered amount is required")),
             db)
        | Some cash_tendered =>
            if flt cash_tendered (pr_amount payment)
            then (Raise (except_Exception
                           (HTTPException 400 "Insufficient cash tendered")),
                  db)
            else
              let order1 := set_payment_method order (Some CASH) in
              let order2 := set_status order1 DONE in
              let order3 := set_done_at order2 (Some now) in
              (Raise (except_Exception broadcast_order_update_two_arguments),
               commit_order db order3)
        end
      else
        (Raise (except_Exception (HTTPException 400 "Invalid payment method")),
         db)
  end.


(** Whether a live row has the primary key of one of the given orders. *)
Definition among (chosen : list Order) (r : Order) : bool :=
  existsb (fun c => o_id c =? o_id r) chosen.

(** The status changes the specification allows: PREP -> READY,
    PREP -> VOID, READY -> DONE, DONE -> REFUNDED or PARTIALLY_REFUNDED,
    and a further refund of a PARTIALLY_REFUNDED order. *)
Definition spec_transition (a b : OrderStatus) : bool :=
  match a, b with
  | PREP, READY | PREP, VOID | READY, DONE
  | DONE, REFUNDED | DONE, PARTIALLY_REFUNDED
  | PARTIALLY_REFUNDED, REFUNDED
  | PARTIALLY_REFUNDED, PARTIALLY_REFUNDED => true
  | _, _ => false
  end.

(** The total the specification requires of an order:
    round(subtotal - total_discount + tax + card_fee, 2). *)
Definition spec_total (o : Order) : float :=
  round2 (fadd (fadd (fsub (subtotal o) (Order_get_total_discount o))
                     (tax o))
               (card_fee o)).

End Model.

(** ** States of the connection manager that its methods can produce *)

Section Reachable.

Context {FP : PyFloat}.

Inductive reachable : ConnectionManager -> Prop :=
  | reach_init : reachable ConnectionManager_init
  | reach_connect m ws t c :
      reachable m -> reachable (connect m ws t c)
  | reach_disconnect m t c :
      reachable m -> reachable (disconnect m t c)
  | reach_add_active_order m c o :
      reachable m -> reachable (add_active_order m c o)
  | reach_remove_active_order m c o :
      reachable m -> reachable (remove_active_order m c o)
  | reach_broadcast_to_type m t msg :
      reachable m -> reachable (fst (broadcast_to_type m t msg))
  | reach_send_to_client m t c msg :
      reachable m -> reachable (fst (send_to_client m t c msg))
  | reach_broadcast_order_update m order_data :
      reachable m ->
      reachable (fst (fst (broadcast_order_update m order_data))).

(** Every client with a watched set is connected under some type. *)
Definition watchers_connected (m : ConnectionManager) : Prop :=
  forall c, dict_contains c (active_orders m) = true ->
            exists t, dict_contains c (connections m t) = true.

End Reachable.

(** ** Further operations of the same modules *)

Section Operations.

Context {FP : PyFloat}.

Definition set_order_number (o : Order) (v : Z) : Order :=
  {| o_id := o_id o; order_number := v; staff_id := staff_id o;
     staff_name := staff_name o; status := status o; subtotal := subtotal o;
     tax := tax o; card_fee := card_fee o; total := total o;
     payment_method := payment_method o; notes := notes o;
     square_payment_id := square_payment_id o;
     square_refund_id := square_refund_id o; created_at := created_at o;
     ready_at := ready_at o; done_at := done_at o;
     refunded_at := refunded_at o; items := items o;
     discounts := discounts o |}.

(** *** utils/order_management.py: reset_order_numbers, daily_order_cleanup *)

(** [.order_by(Order.created_at)]: ascending; rows created at the same
    instant stay in table order. *)
Fixpoint insert_by_created_at (o : Order) (l : list Order) : list Order :=
  match l with
  | [] => [o]
  | x :: rest =>
      if created_at o <=? created_at x then o :: l
      else x :: insert_by_created_at o rest
  end.

Definition order_by_created_at (l : list Order) : list Order :=
  fold_right insert_by_created_at [] l.

(** [enumerate(l, start)] *)
Fixpoint enumerate {A} (start : Z) (l : list A) : list (Z * A) :=
  match l with
  | [] => []
  | x :: rest => (start, x) :: enumerate (start + 1) rest
  end.

(** The active orders [reset_order_numbers] loads, after its archival. *)
Definition active_orders_by_age (db : Database) : list Order :=
  order_by_created_at
    (filter (fun o => is_active (status o)) (tbl_orders db)).

(** [reset_order_numbers]: the database after the commit and the returned
    flag. *)
Definition reset_order_numbers (db : Database) (now : Z) : Database * bool :=
  let db1 := fst (archive_completed_orders db now) in
  let active := active_orders_by_age db1 in
  (fold_left
     (fun d io => commit_order d (set_order_number (snd io) (fst io)))
     (enumerate 1 active) db1,
   true).

(** The position, counted from [start], of the order with primary key
    [id] in a list of orders. *)
Fixpoint position_of (start : Z) (l : list Order) (id : Z) : option Z :=
  match l with
  | [] => None
  | o :: rest =>
      if o_id o =? id then Some start else position_of (start + 1) rest id
  end.

(** A row with the number of its position in the list, if it is there. *)
Definition renumbered (start : Z) (l : list Order) (r : Order) : Order :=
  match position_of start l (o_id r) with
  | Some n => set_order_number r n
  | None => r
  end.

(** Orders by age: each was created no later than those after it. *)
Definition by_age : list Order -> Prop :=
  StronglySorted (fun a b => created_at a <= created_at b).

(** [daily_order_cleanup]; [now1] and [now2] are the instants of its two
    steps. *)
Definition daily_order_cleanup (db : Database) (now1 now2 : Z)
    : Database * bool :=
  let db1 := fst (archive_completed_orders db now1) in
  let db2 := fst (reset_order_numbers db1 now2) in
  (db2, true).

(** *** models/order.py: OrderHistory.to_dict *)

Definition OrderHistory_to_dict (self : OrderHistory) : dict JSON :=
  [("order_id", JInt (h_order_id self));
   ("order_number", JInt (h_order_number self));
   ("staff_name", JStr (h_staff_name self));
   ("status", JStr (OrderStatus_value (h_status self)));
   ("subtotal", JFloat (h_subtotal self));
   ("tax", JFloat (h_tax self));
   ("card_fee", JFloat (h_card_fee self));
   ("total", JFloat (h_total self));
   ("payment_method",
      match h_payment_method self with
      | Some p => JStr (PaymentMethod_value p)
      | None => JNone
      end);
   ("notes", json_opt_str (h_notes self));
   ("created_at", JTime (h_created_at self));
   ("ready_at", json_opt_time (h_ready_at self));
   ("done_at", json_opt_time (h_done_at self));
   ("refunded_at", json_opt_time (h_refunded_at self));
   ("archived_at", json_opt_time (h_archived_at self));
   ("items", JList (items_data self));
   ("discounts", JList (discounts_data self))].

(** *** utils/websocket.py: the other broadcasts *)

(** Truth value of a JSON value; a float is false when it equals 0.0. *)
Definition json_truthy (v : JSON) : bool :=
  match v with
  | JNone => false
  | JBool b => b
  | JInt n => negb (n =? 0)
  | JFloat x => negb (fge x f0 && fge f0 x)
  | JStr s => negb (String.eqb s "")
  | JTime _ => true
  | JList l => match l with [] => false | _ => true end
  | JDict d => match d with [] => false | _ => true end
  end.

(** [ConnectionManager.broadcast_payment_update] *)
Definition broadcast_payment_update
    (m : ConnectionManager) (payment_data : dict JSON)
    : ConnectionManager * list Delivery * result unit :=
  let msg := [("type", JStr "payment_update");
              ("data", JDict payment_data)] in
  let (m1, sent_pos) := broadcast_to_type m POS msg in
  match dict_get "order_id" payment_data with
  | Some order_id =>
      if json_truthy order_id then
        match customer_display_loop (List.length (active_orders m1))
                                    order_id msg (active_orders m1) m1 with
        | (m2, sent_cd, r) => (m2, sent_pos ++ sent_cd, r)
        end
      else (m1, sent_pos, Ok tt)
  | None => (m1, sent_pos, Ok tt)
  end.

(** [ConnectionManager.broadcast_catalog_update] *)
Definition broadcast_catalog_update
    (m : ConnectionManager) (update_data : dict JSON)
    : ConnectionManager * list Delivery :=
  let msg := [("type", JStr "catalog_update");
              ("data", JDict update_data)] in
  let (m1, sent_pos) := broadcast_to_type m POS msg in
  let (m2, sent_cd) := broadcast_to_type m1 CUSTOMER_DISPLAY msg in
  (m2, sent_pos ++ sent_cd).

Definition ClientType_eqb (a b : ClientType) : bool :=
  match a, b with
  | POS, POS | CUSTOMER_DISPLAY, CUSTOMER_DISPLAY
  | KITCHEN_DISPLAY, KITCHEN_DISPLAY => true
  | _, _ => false
  end.

(** A dictionary without the entries of the given keys. *)
Definition dict_without {V} (keys : list string) (d : dict V) : dict V :=
  filter (fun kv => negb (existsb (String.eqb (fst kv)) keys)) d.

(** The delivery of [msg] to the client of an entry of a registry. *)
Definition deliver {V} (client_type : ClientType) (msg : dict JSON)
    (entry : string * V) : Delivery :=
  {| to_type := client_type; to_id := fst entry; message := msg |}.

(** The clients of a registry whose socket is open, and the ids of those
    whose socket is closed. *)
Definition open_clients (d : dict WebSocket) : dict WebSocket :=
  filter (fun kv => ws_open (snd kv)) d.

Definition closed_ids (d : dict WebSocket) : list string :=
  map fst (filter (fun kv => negb (ws_open (snd kv))) d).

(** The entries of the watched sets that [broadcast_order_update] sends
    to: the clients watching order [n] that are connected as customer
    displays. *)
Definition watching_displays (m : ConnectionManager) (n : Z)
    : dict (list Z) :=
  filter (fun e => set_contains n (snd e)
                   && dict_contains (fst e)
                                    (connections m CUSTOMER_DISPLAY))
         (active_orders m).

(** *** app.py: closing every connection at shutdown *)

(** The inner loop of the shutdown:
    [for client_id in list(manager.connections[client_type].keys())]. *)
Definition disconnect_all
    (m : ConnectionManager) (client_type : ClientType)
    (client_ids : list string) : ConnectionManager :=
  fold_left (fun m' c => disconnect m' client_type c) client_ids m.

(** The loop [for client_type in manager.connections] of [lifespan]. *)
Definition close_all_connections (m : ConnectionManager)
    : ConnectionManager :=
  fold_left
    (fun m' t => disconnect_all m' t (map fst (connections m' t)))
    [POS; CUSTOMER_DISPLAY; KITCHEN_DISPLAY] m.

(** *** routes/order.py: close_order *)

Record PaymentData : Type := {
  pdt_payment_method : PaymentMethod;
  pdt_cash_tendered : option float;
  pdt_tip_amount : option float;
  pdt_card_fee_id : option Z
}.

(** Route [close_order]: the response, the database and the connection
    manager after the request. *)
Definition close_order
    (db : Database) (m : ConnectionManager) (order_id : Z)
    (payment_data : PaymentData) (now : Z)
    : result JSON * Database * ConnectionManager :=
  match query_order db order_id with
  | None => (Raise (HTTPException 404 "Order not found"), db, m)
  | Some order =>
      if negb (OrderStatus_eqb (status order) READY)
      then (Raise (HTTPException 400 "Order must be READY to close"), db, m)
      else
        let settings := query_card_fee_settings db in
        let order1 :=
          set_payment_method order (Some (pdt_payment_method payment_data)) in
        let order2 :=
          match pdt_payment_method payment_data with
          | CARD => Order_calculate_card_fee order1 settings
          | CASH => order1
          end in
        let order3 := Order_calculate_total order2 settings in
        let validated :=
          match pdt_payment_method payment_data with
          | CASH =>
              validate_payment (PaymentMethod_value CASH) (total order3)
                               (pdt_cash_tendered payment_data)
          | CARD => Ok f0
          end in
        match validated with
        | Raise (ValueError msg) => (Raise (HTTPException 400 msg), db, m)
        | Raise e => (Raise e, db, m)
        | Ok _ =>
            let order4 := set_done_at (set_status order3 DONE) (Some now) in
            let db' := commit_order db order4 in
            match broadcast_order_update m (Order_to_dict order4) with
            | (m', _, Raise e) => (Raise e, db', m')
            | (m', _, Ok _) => (Ok (JDict (Order_to_dict order4)), db', m')
            end
        end
  end.

(** *** utils/order_validation.py: validate_order_items *)


End Operations.

(** ** Exact decimal arithmetic, to run the functions on concrete amounts *)

(** [round(x, 2)] on an exact rational: nearest hundredth, ties to even. *)
Definition Qround2 (q : Q) : Q :=
  let n := (Qnum q * 100)%Z in
  let d := Zpos (Qden q) in
  let fl := (n / d)%Z in
  let r := (n mod d)%Z in
  let k :=
    if (2 * r <? d)%Z then fl
    else if (d <? 2 * r)%Z then (fl + 1)%Z
    else if Z.even fl then fl else (fl + 1)%Z in
  Qred (k # 100).

#[export] Instance Q_PyFloat : PyFloat := {|
  float := Q;
  of_int := inject_Z;
  fadd := fun a b => Qred (a + b);
  fsub := fun a b => Qred (a - b);
  fmul := fun a b => Qred (a * b);
  fdiv := fun a b => Qred (a / b);
  fabs := fun a => Qred (Qabs a);
  round2 := Qround2;
  flt := fun a b => negb (Qle_bool b a);
  fge := fun a b => Qle_bool b a;
  fge_not_flt := fun a b H => f_equal negb H
|}.

(** ** Sample data *)

(** An amount given in cents. *)
Definition usd (cents : Z) : Q := Qred (cents # 100).

Definition burger : OrderItem :=
  {| oi_id := 1; item_id := 1; item_name := "Burger"; quantity := 1;
     item_price := usd 1000; mods_price := usd 0; total_price := usd 1000;
     oi_notes := None; mods := [] |}.

(** An order of one burger: subtotal 10.00, tax 0.80, total 10.80. *)
Definition order_at
    (id number : Z) (st : OrderStatus) (method : option PaymentMethod)
    (created : Z) : Order :=
  {| o_id := id; order_number := number; staff_id := 1;
     staff_name := "Ana"; status := st;
     subtotal := usd 1000; tax := usd 80; card_fee := usd 0;
     total := usd 1080; payment_method := method; notes := None;
     square_payment_id := None; square_refund_id := None;
     created_at := created; ready_at := None; done_at := None;
     refunded_at := None; items := [burger]; discounts := [] |}.

Definition open_group : DiscountGroup :=
  {| dg_name := "Discounts"; dg_available := true |}.

Definition closed_group : DiscountGroup :=
  {| dg_name := "Seasonal"; dg_available := false |}.

(** A flat discount of 5.00, stored negative as [models/discount.py]
    prescribes for flat amounts. *)
Definition five_off : Discount :=
  {| d_id := 100001; d_group := open_group; d_name := "Five off";
     d_amount := usd (-500); d_is_percentage := false; d_sort_order := 1;
     d_available := true |}.

(** A 10% discount whose group is unavailable. *)
Definition ten_percent_closed : Discount :=
  {| d_id := 100002; d_group := closed_group; d_name := "Ten percent";
     d_amount := usd 1000; d_is_percentage := true; d_sort_order := 2;
     d_available := true |}.

Definition default_settings : CardFeeSettings :=
  {| cfs_available := true; percentage_amount := usd 5;
     min_fee := usd 30 |}.

Definition database_of (rows : list Order) : Database :=
  {| tbl_orders := rows; tbl_order_history := [];
     tbl_card_fee_settings := [default_settings];
     tbl_discounts := [five_off; ten_percent_closed] |}.

(** An order that has no item yet: every amount is 0. *)
Definition empty_order (id : Z) : Order :=
  {| o_id := id; order_number := 1; staff_id := 1;
     staff_name := "Ana"; status := PREP;
     subtotal := usd 0; tax := usd 0; card_fee := usd 0;
     total := usd 0; payment_method := None; notes := None;
     square_payment_id := None; square_refund_id := None;
     created_at := 960000; ready_at := None; done_at := None;
     refunded_at := None; items := []; discounts := [] |}.

(** One burger, and an update that asks for payment by card. *)
Definition sample_item : OrderItemData :=
  {| oid_item_id := 1; oid_quantity := 1; oid_mods := [] |}.

Definition sample_update : OrderUpdate :=
  {| ou_status := None; ou_notes := None; ou_payment_method := Some CARD;
     ou_tip_amount := None |}.

(** The instant of the sample requests; its day starts at 950400. *)
Definition sample_now : Z := 1000000.

Definition cash_payment (order_id : Z) : PaymentRequest :=
  {| pr_order_id := order_id; pr_amount := usd 1080;
     pr_payment_method := "cash";
     payment_details :=
       {| source_id := None; pd_cash_tendered := Some (usd 2000);
          pd_tip_amount := None |} |}.

(** A point-of-sale terminal and a kitchen display, both connected. *)
Definition sample_manager : ConnectionManager :=
  connect (connect ConnectionManager_init {| ws_open := true |} POS "pos-1")
          {| ws_open := true |} KITCHEN_DISPLAY "kds-1".

(** Who received a delivery. *)
Definition recipient (d : Delivery) : ClientType * string :=
  (to_type d, to_id d).

(** Two active orders, the second one older, and a completed order from
    long ago. *)
Definition cleanup_database : Database :=
  database_of [order_at 1 9 PREP None 970000;
               order_at 2 4 READY None 960000;
               order_at 3 5 DONE (Some CASH) 100].

(** A point-of-sale terminal, and a customer display that watches order 1
    and whose socket has closed. *)
Definition stale_display_manager : ConnectionManager :=
  add_active_order
    (connect
       (connect ConnectionManager_init {| ws_open := true |} POS "pos-1")
       {| ws_open := false |} CUSTOMER_DISPLAY "cd-1")
    "cd-1" 1.

(** The update of order 1, in preparation. *)
Definition prep_order_data : dict JSON :=
  ("id", JInt 1) :: Order_to_dict (order_at 1 5 PREP None 960000).

Definition cash_closing : PaymentData :=
  {| pdt_payment_method := CASH; pdt_cash_tendered := Some (usd 2000);
     pdt_tip_amount := None; pdt_card_fee_id := None |}.

(** A cash payment of 1.00 on order 1, with 1.00 tendered. *)
Definition small_cash_payment : PaymentRequest :=
  {| pr_order_id := 1; pr_amount := usd 100;
     pr_payment_method := "cash";
     payment_details :=
       {| source_id := None; pd_cash_tendered := Some (usd 100);
          pd_tip_amount := None |} |}.

(** * Properties *)

Section Properties.

Context {FP : PyFloat}.

(** ** Dictionaries and sets *)

Lemma dict_contains_del {V} (k : string) (d : dict V) :
  dict_contains k (dict_del k d) = false.
Proof.
  unfold dict_contains, dict_del.
  induction d as [|[k' v] d IH]; simpl; [reflexivity|].
  destruct (String.eqb k' k) eqn:E; simpl; [exact IH|].
  rewrite E. exact IH.
Qed.

Lemma dict_del_absent {V} (k : string) (d : dict V) :
  dict_contains k d = false -> dict_del k d = d.
Proof.
  unfold dict_contains, dict_del.
  induction d as [|[k' v] d IH]; simpl; [reflexivity|].
  destruct (String.eqb k' k) eqn:E; simpl; [discriminate|].
  intros H. rewrite (IH H). reflexivity.
Qed.

Lemma dict_get_contains {V} (k : string) (d : dict V) (v : V) :
  dict_get k d = Some v -> dict_contains k d = true.
Proof.
  unfold dict_get, dict_contains.
  induction d as [|[k' v'] d IH]; simpl; [discriminate|].
  destruct (String.eqb k' k); simpl; [reflexivity | exact IH].
Qed.

Lemma dict_get_set {V} (k : string) (v : V) (d : dict V) :
  dict_get k (dict_set k v d) = Some v.
Proof.
  unfold dict_get.
  induction d as [|[k' v'] d IH]; simpl.
  - rewrite String.eqb_refl. reflexivity.
  - destruct (String.eqb k' k) eqn:E; simpl.
    + rewrite String.eqb_refl. reflexivity.
    + rewrite E. exact IH.
Qed.

Lemma dict_set_set {V} (k : string) (v v' : V) (d : dict V) :
  dict_set k v (dict_set k v' d) = dict_set k v d.
Proof.
  induction d as [|[k' w] d IH]; simpl.
  - rewrite String.eqb_refl. reflexivity.
  - destruct (String.eqb k' k) eqn:E; simpl.
    + rewrite String.eqb_refl. reflexivity.
    + rewrite E, IH. reflexivity.
Qed.

Lemma dict_set_same {V} (k : string) (v : V) (d : dict V) :
  dict_get k d = Some v -> dict_set k v d = d.
Proof.
  unfold dict_get.
  induction d as [|[k' w] d IH]; simpl; [discriminate|].
  destruct (String.eqb k' k) eqn:E; simpl.
  - intros H. injection H as ->. apply String.eqb_eq in E. subst k'.
    reflexivity.
  - intros H. rewrite (IH H). reflexivity.
Qed.

Lemma dict_contains_set {V} (k k' : string) (v : V) (d : dict V) :
  dict_contains k' (dict_set k v d)
  = String.eqb k k' || dict_contains k' d.
Proof.
  unfold dict_contains.
  induction d as [|[k0 w] d IH]; simpl.
  - rewrite orb_false_r. reflexivity.
  - destruct (String.eqb k0 k) eqn:E; simpl.
    + apply String.eqb_eq in E. subst k0.
      destruct (String.eqb k k'); reflexivity.
    + rewrite IH. destruct (String.eqb k0 k'), (String.eqb k k'); reflexivity.
Qed.

Lemma dict_contains_del_other {V} (k k' : string) (d : dict V) :
  dict_contains k' (dict_del k d)
  = negb (String.eqb k' k) && dict_contains k' d.
Proof.
  unfold dict_contains, dict_del.
  induction d as [|[k0 w] d IH]; simpl.
  - rewrite andb_false_r. reflexivity.
  - destruct (String.eqb k0 k) eqn:E; simpl.
    + rewrite IH. apply String.eqb_eq in E. subst k0.
      destruct (String.eqb k k') eqn:E'; simpl.
      * rewrite String.eqb_sym, E'. reflexivity.
      * reflexivity.
    + rewrite IH. destruct (String.eqb k0 k') eqn:E'; simpl; [|reflexivity].
      apply String.eqb_eq in E'. subst k0. rewrite E. reflexivity.
Qed.

Lemma set_discard_absent (x : Z) (s : list Z) :
  set_contains x s = false -> set_discard x s = s.
Proof.
  unfold set_contains, set_discard.
  induction s as [|y s IH]; simpl; [reflexivity|].
  destruct (x =? y); simpl; [discriminate|].
  intros H. rewrite (IH H). reflexivity.
Qed.

Lemma set_contains_discard (x : Z) (s : list Z) :
  set_contains x (set_discard x s) = false.
Proof.
  unfold set_contains, set_discard.
  induction s as [|y s IH]; simpl; [reflexivity|].
  destruct (x =? y) eqn:E; simpl; [exact IH|].
  rewrite E. exact IH.
Qed.

(** ** The connection registry *)

Lemma set_active_orders_same (m : ConnectionManager) :
  set_active_orders m (active_orders m) = m.
Proof. destruct m; reflexivity. Qed.

Lemma connections_set_connections m t d t' :
  connections (set_connections m t d) t'
  = match t, t' with
    | POS, POS | CUSTOMER_DISPLAY, CUSTOMER_DISPLAY
    | KITCHEN_DISPLAY, KITCHEN_DISPLAY => d
    | _, _ => connections m t'
    end.
Proof. destruct t, t'; reflexivity. Qed.

Lemma active_orders_set_connections m t d :
  active_orders (set_connections m t d) = active_orders m.
Proof. destruct t; reflexivity. Qed.

Lemma disconnect_absent m t c :
  dict_contains c (connections m t) = false ->
  dict_contains c (active_orders m) = false ->
  disconnect m t c = m.
Proof.
  intros H1 H2. unfold disconnect. rewrite H1, H2. reflexivity.
Qed.

Lemma connections_disconnect m t c t' :
  connections (disconnect m t c) t'
  = if match t, t' with
       | POS, POS | CUSTOMER_DISPLAY, CUSTOMER_DISPLAY
       | KITCHEN_DISPLAY, KITCHEN_DISPLAY => true
       | _, _ => false
       end
    then dict_del c (connections m t')
    else connections m t'.
Proof.
  unfold disconnect.
  destruct (dict_contains c (connections m t)) eqn:E1.
  - rewrite active_orders_set_connections.
    destruct (dict_contains c (active_orders m));
      destruct t, t'; reflexivity.
  - destruct (dict_contains c (active_orders m));
      destruct t, t'; simpl; try reflexivity;
      symmetry; apply dict_del_absent; exact E1.
Qed.

Lemma active_orders_disconnect m t c :
  active_orders (disconnect m t c) = dict_del c (active_orders m).
Proof.
  unfold disconnect.
  destruct (dict_contains c (connections m t));
    rewrite ?active_orders_set_connections;
    destruct (dict_contains c (active_orders m)) eqn:E2;
    rewrite ?active_orders_set_connections;
    try reflexivity;
    try (symmetry; apply dict_del_absent; exact E2);
    destruct t; reflexivity.
Qed.

Lemma disconnect_twice m t c :
  disconnect (disconnect m t c) t c = disconnect m t c.
Proof.
  apply disconnect_absent.
  - rewrite connections_disconnect.
    destruct t; apply dict_contains_del.
  - rewrite active_orders_disconnect. apply dict_contains_del.
Qed.

Lemma remove_active_order_absent m c o :
  (forall orders, dict_get c (active_orders m) = Some orders ->
                  set_contains o orders = false) ->
  remove_active_order m c o = m.
Proof.
  intros H. unfold remove_active_order.
  destruct (dict_get c (active_orders m)) as [orders|] eqn:E; [|reflexivity].
  rewrite (set_discard_absent _ _ (H orders eq_refl)).
  rewrite (dict_set_same _ _ E). apply set_active_orders_same.
Qed.

Lemma remove_active_order_twice m c o :
  remove_active_order (remove_active_order m c o) c o
  = remove_active_order m c o.
Proof.
  apply remove_active_order_absent. intros orders.
  unfold remove_active_order.
  destruct (dict_get c (active_orders m)) as [orders0|] eqn:E.
  - simpl. rewrite dict_get_set. intros H. injection H as <-.
    apply set_contains_discard.
  - rewrite E. discriminate.
Qed.

Lemma connections_set_active_orders m a t :
  connections (set_active_orders m a) t = connections m t.
Proof. destruct t; reflexivity. Qed.

(** *** Every watched set belongs to a connected client *)

Lemma watchers_connected_init : watchers_connected ConnectionManager_init.
Proof. intros c H. discriminate H. Qed.

Lemma watchers_connected_connect m ws t c :
  watchers_connected m -> watchers_connected (connect m ws t c).
Proof.
  intros Hm c'. unfold connect. simpl.
  rewrite active_orders_set_connections, dict_contains_set.
  destruct (String.eqb c c') eqn:E; simpl.
  - intros _. apply String.eqb_eq in E. subst c'. exists t.
    rewrite connections_set_active_orders, connections_set_connections.
    destruct t; rewrite dict_contains_set, String.eqb_refl; reflexivity.
  - intros H. destruct (Hm c' H) as [t' Ht']. exists t'.
    rewrite connections_set_active_orders, connections_set_connections.
    destruct t, t'; try exact Ht';
      rewrite dict_contains_set, Ht'; apply orb_true_r.
Qed.

Lemma watchers_connected_disconnect m t c :
  watchers_connected m -> watchers_connected (disconnect m t c).
Proof.
  intros Hm c'. rewrite active_orders_disconnect, dict_contains_del_other.
  intros H. apply andb_prop in H. destruct H as [Hne Hin].
  destruct (Hm c' Hin) as [t' Ht']. exists t'.
  rewrite connections_disconnect.
  destruct t, t'; try exact Ht';
    rewrite dict_contains_del_other, Hne, Ht'; reflexivity.
Qed.

Lemma watchers_connected_update m c v :
  watchers_connected m ->
  dict_contains c (active_orders m) = true ->
  watchers_connected
    (set_active_orders m (dict_set c v (active_orders m))).
Proof.
  intros Hm Hc c'. simpl. rewrite dict_contains_set. intros H.
  assert (Hin : dict_contains c' (active_orders m) = true).
  { destruct (String.eqb c c') eqn:E; [|exact H].
    apply String.eqb_eq in E. subst c'. exact Hc. }
  destruct (Hm c' Hin) as [t' Ht']. exists t'.
  rewrite connections_set_active_orders. exact Ht'.
Qed.

Lemma watchers_connected_add_active_order m c o :
  watchers_connected m -> watchers_connected (add_active_order m c o).
Proof.
  intros Hm. unfold add_active_order.
  destruct (dict_get c (active_orders m)) as [orders|] eqn:E; [|exact Hm].
  apply watchers_connected_update; [exact Hm|].
  exact (dict_get_contains _ _ E).
Qed.

Lemma watchers_connected_remove_active_order m c o :
  watchers_connected m -> watchers_connected (remove_active_order m c o).
Proof.
  intros Hm. unfold remove_active_order.
  destruct (dict_get c (active_orders m)) as [orders|] eqn:E; [|exact Hm].
  apply watchers_connected_update; [exact Hm|].
  exact (dict_get_contains _ _ E).
Qed.

Lemma watchers_connected_disconnect_all
    (l : list (ClientType * string)) m :
  watchers_connected m ->
  watchers_connected
    (fold_left (fun m' tc => disconnect m' (fst tc) (snd tc)) l m).
Proof.
  revert m. induction l as [|[t c] l IH]; intros m Hm; simpl; [exact Hm|].
  apply IH. apply watchers_connected_disconnect. exact Hm.
Qed.

Lemma watchers_connected_broadcast_to_type m t msg :
  watchers_connected m ->
  watchers_connected (fst (broadcast_to_type m t msg)).
Proof.
  intros Hm. unfold broadcast_to_type.
  destruct (broadcast_loop t msg (connections m t)) as [sent disconnected].
  simpl. apply watchers_connected_disconnect_all. exact Hm.
Qed.

Lemma watchers_connected_send_to_client m t c msg :
  watchers_connected m ->
  watchers_connected (fst (send_to_client m t c msg)).
Proof.
  intros Hm. unfold send_to_client.
  destruct (dict_get c (connections m t)) as [ws|]; [|exact Hm].
  destruct (send_json ws); simpl; [exact Hm|].
  apply watchers_connected_disconnect. exact Hm.
Qed.

Lemma watchers_connected_customer_display_loop size order_id msg entries m :
  watchers_connected m ->
  watchers_connected
    (fst (fst (customer_display_loop size order_id msg entries m))).
Proof.
  revert m. induction entries as [|[c orders] entries IH]; intros m Hm;
    simpl; [exact Hm|].
  destruct (json_in_set order_id orders); [|apply IH; exact Hm].
  pose proof (watchers_connected_send_to_client CUSTOMER_DISPLAY c msg Hm)
    as Hs.
  destruct (send_to_client m CUSTOMER_DISPLAY c msg) as [m1 sent].
  simpl in Hs.
  destruct (Nat.eqb (List.length (active_orders m1)) size); [|exact Hs].
  specialize (IH m1 Hs).
  destruct (customer_display_loop size order_id msg entries m1)
    as [[m2 sent2] r].
  exact IH.
Qed.

Lemma watchers_connected_broadcast_order_update m order_data :
  watchers_connected m ->
  watchers_connected (fst (fst (broadcast_order_update m order_data))).
Proof.
  intros Hm. unfold broadcast_order_update.
  destruct (dict_get "id" order_data) as [order_id|]; [|exact Hm].
  set (msg := [("type", JStr "order_update"); ("data", JDict order_data)]).
  pose proof (watchers_connected_broadcast_to_type POS msg Hm) as H1.
  destruct (broadcast_to_type m POS msg) as [m1 sent_pos]. simpl in H1.
  pose proof (watchers_connected_customer_display_loop
                (List.length (active_orders m1)) order_id msg
                (active_orders m1) H1) as H2.
  destruct (customer_display_loop (List.length (active_orders m1))
              order_id msg (active_orders m1) m1) as [[m2 sent_cd] r].
  simpl in H2. destruct r; [|exact H2].
  destruct (json_is_str (dict_get "status" order_data) "open"); [|exact H2].
  pose proof (watchers_connected_broadcast_to_type KITCHEN_DISPLAY msg H2)
    as H3.
  destruct (broadcast_to_type m2 KITCHEN_DISPLAY msg) as [m3 sent_kd].
  exact H3.
Qed.

Lemma reachable_watchers_connected m :
  reachable m -> watchers_connected m.
Proof.
  induction 1.
  - apply watchers_connected_init.
  - apply watchers_connected_connect; assumption.
  - apply watchers_connected_disconnect; assumption.
  - apply watchers_connected_add_active_order; assumption.
  - apply watchers_connected_remove_active_order; assumption.
  - apply watchers_connected_broadcast_to_type; assumption.
  - apply watchers_connected_send_to_client; assumption.
  - apply watchers_connected_broadcast_order_update; assumption.
Qed.

(** C10. [ConnectionManager.disconnect] and
    [ConnectionManager.remove_active_order] are total functions of the
    manager, and in every state the manager's methods can produce:
    disconnecting a client id that no client type has registered leaves the
    registry and every watched set unchanged; unwatching an order id that is
    not in the client's watched set (or for a client with no watched set)
    leaves them unchanged; and either call applied twice equals the call
    applied once. *)
Theorem disconnect_and_unwatch_idempotent (m : ConnectionManager) :
  reachable m ->
  (forall t c,
      (forall t', dict_contains c (connections m t') = false) ->
      disconnect m t c = m)
  /\ (forall c o,
      (forall orders, dict_get c (active_orders m) = Some orders ->
                      set_contains o orders = false) ->
      remove_active_order m c o = m)
  /\ (forall t c, disconnect (disconnect m t c) t c = disconnect m t c)
  /\ (forall c o,
      remove_active_order (remove_active_order m c o) c o
      = remove_active_order m c o).
Proof.
  intros Hm. repeat split.
  - intros t c Hc. apply disconnect_absent; [apply Hc|].
    destruct (dict_contains c (active_orders m)) eqn:E; [|reflexivity].
    destruct (reachable_watchers_connected Hm c E) as [t' Ht'].
    rewrite Hc in Ht'. discriminate.
  - intros c o. apply remove_active_order_absent.
  - intros t c. apply disconnect_twice.
  - intros c o. apply remove_active_order_twice.
Qed.

(** ** Payment validation *)

(** C9. [validate_payment] with method "card" raises [ValueError] when a
    cash amount is supplied and returns 0.0 when none is; with method
    "cash" and [cash_tendered >= total] it returns exactly
    [cash_tendered - total]; any other method raises [ValueError]. *)
Theorem validate_payment_contract (total_ : float) :
  (forall c,
      validate_payment "card" total_ (Some c)
      = Raise (ValueError
                 "Cash tendered should not be provided for card payments"))
  /\ validate_payment "card" total_ None = Ok f0
  /\ (forall c,
      fge c total_ = true ->
      validate_payment "cash" total_ (Some c) = Ok (fsub c total_))
  /\ (forall method c,
      method <> "cash" -> method <> "card" ->
      validate_payment method total_ c
      = Raise (ValueError "Invalid payment method")).
Proof.
  repeat split.
  - intros c Hc. unfold validate_payment. simpl.
    rewrite (fge_not_flt _ _ Hc). reflexivity.
  - intros method c H1 H2. unfold validate_payment.
    apply String.eqb_neq in H1, H2. rewrite H1, H2. reflexivity.
Qed.

(** ** Archival *)

Lemma filter_all {A} (f : A -> bool) (l : list A) :
  (forall x, In x l -> f x = true) -> filter f l = l.
Proof.
  induction l as [|a l IH]; simpl; intros H; [reflexivity|].
  rewrite (H a (or_introl eq_refl)). f_equal. apply IH.
  intros x Hx. apply H. right. exact Hx.
Qed.

Lemma filter_twice {A} (f g : A -> bool) (l : list A) :
  filter g (filter f l) = filter (fun x => f x && g x) l.
Proof.
  induction l as [|a l IH]; simpl; [reflexivity|].
  destruct (f a); simpl; [destruct (g a)|]; rewrite IH; reflexivity.
Qed.

Lemma find_absent {A} (f : A -> bool) (l : list A) :
  (forall x, In x l -> f x = false) -> find f l = None.
Proof.
  induction l as [|a l IH]; simpl; intros H; [reflexivity|].
  rewrite (H a (or_introl eq_refl)). apply IH.
  intros x Hx. apply H. right. exact Hx.
Qed.

(** Selecting rows keeps the primary keys distinct. *)
Lemma distinct_ids_filter (keep : Order -> bool) (rows : list Order) :
  NoDup (map o_id rows) -> NoDup (map o_id (filter keep rows)).
Proof.
  intros Hnd. induction rows as [|r rows IH]; [exact Hnd|].
  apply NoDup_cons_iff in Hnd. destruct Hnd as [Hfirst Hrest].
  simpl. destruct (keep r); [|exact (IH Hrest)].
  simpl. apply NoDup_cons.
  - intros Hin. apply Hfirst. apply in_map_iff in Hin.
    destruct Hin as (r' & Hid & Hr'). apply filter_In in Hr'.
    rewrite <- Hid. apply in_map. apply Hr'.
  - exact (IH Hrest).
Qed.

(** Two live rows with the same primary key are the same row. *)
Lemma same_id_same_order (rows : list Order) (a b : Order) :
  NoDup (map o_id rows) -> In a rows -> In b rows ->
  o_id a = o_id b -> a = b.
Proof.
  intros Hnd. induction rows as [|r rows IH]; [contradiction|].
  apply NoDup_cons_iff in Hnd. destruct Hnd as [Hfirst Hrest].
  intros [Ha | Ha] [Hb | Hb] Hid.
  - congruence.
  - subst r. rewrite Hid in Hfirst. elim Hfirst. apply in_map. exact Hb.
  - subst r. rewrite <- Hid in Hfirst. elim Hfirst. apply in_map. exact Ha.
  - exact (IH Hrest Ha Hb Hid).
Qed.

Lemma delete_orders_filter (chosen rows : list Order) :
  fold_left (fun rows o => delete_order o rows) chosen rows
  = filter (fun r => negb (among chosen r)) rows.
Proof.
  revert rows. induction chosen as [|c chosen IH]; intros rows; simpl.
  - symmetry. apply filter_all. reflexivity.
  - rewrite IH. unfold delete_order. rewrite filter_twice.
    apply filter_ext. intros r. unfold among. simpl.
    rewrite negb_orb, (Z.eqb_sym (o_id r)). reflexivity.
Qed.

Lemma no_archive_count (l : list Order) :
  (0 <? Z.of_nat (List.length l)) = false -> l = [].
Proof.
  destruct l; [reflexivity|]. intros H. apply Z.ltb_ge in H.
  simpl List.length in H. lia.
Qed.

Lemma archive_tbl_orders (db : Database) (now : Z) :
  tbl_orders (fst (archive_completed_orders db now))
  = filter (fun r => negb (among (completed_orders db now) r))
           (tbl_orders db).
Proof.
  unfold archive_completed_orders.
  destruct (0 <? Z.of_nat (List.length (completed_orders db now))) eqn:E.
  - cbn [fst tbl_orders]. apply delete_orders_filter.
  - rewrite (no_archive_count _ E). symmetry. apply filter_all. reflexivity.
Qed.

Lemma archive_tbl_order_history (db : Database) (now : Z) :
  tbl_order_history (fst (archive_completed_orders db now))
  = tbl_order_history db
    ++ map (fun o => insert_history now (OrderHistory_from_order o))
           (completed_orders db now).
Proof.
  unfold archive_completed_orders.
  destruct (0 <? Z.of_nat (List.length (completed_orders db now))) eqn:E.
  - reflexivity.
  - rewrite (no_archive_count _ E). simpl. rewrite app_nil_r. reflexivity.
Qed.

Lemma archived_ids (now : Z) (l : list Order) :
  map h_order_id
      (map (fun o => insert_history now (OrderHistory_from_order o)) l)
  = map o_id l.
Proof. rewrite map_map. reflexivity. Qed.

Lemma among_completed (db : Database) (now : Z) (o : Order) :
  NoDup (map o_id (tbl_orders db)) ->
  In o (tbl_orders db) ->
  among (completed_orders db now) o
  = is_completed (status o) && (created_at o <? now - 24 * 3600).
Proof.
  intros Hnd Ho. unfold among.
  destruct (is_completed (status o) && (created_at o <? now - 24 * 3600))
    eqn:E.
  - apply existsb_exists. exists o. split; [|apply Z.eqb_refl].
    apply filter_In. split; assumption.
  - destruct (existsb (fun c => o_id c =? o_id o) (completed_orders db now))
      eqn:Ex; [|reflexivity].
    apply existsb_exists in Ex. destruct Ex as (c & Hc & Hid).
    apply filter_In in Hc. destruct Hc as [Hc Hp].
    apply Z.eqb_eq in Hid.
    rewrite (same_id_same_order _ _ _ Hnd Hc Ho Hid) in Hp.
    rewrite Hp in E. discriminate.
Qed.

Lemma kept_order_has_no_history (db : Database) (now : Z) (o : Order) :
  NoDup (map o_id (tbl_orders db)) ->
  (forall o, In o (tbl_orders db) ->
             ~ In (o_id o) (map h_order_id (tbl_order_history db))) ->
  In o (tbl_orders db) ->
  among (completed_orders db now) o = false ->
  ~ In (o_id o)
       (map h_order_id
            (tbl_order_history (fst (archive_completed_orders db now)))).
Proof.
  intros Hnd Hfresh Ho Ham Hin.
  rewrite archive_tbl_order_history, map_app, archived_ids in Hin.
  apply in_app_or in Hin. destruct Hin as [Hin | Hin].
  - exact (Hfresh o Ho Hin).
  - apply in_map_iff in Hin. destruct Hin as (c & Hid & Hc).
    assert (Hex : among (completed_orders db now) o = true).
    { apply existsb_exists. exists c. split; [exact Hc|].
      apply Z.eqb_eq. exact Hid. }
    rewrite Ham in Hex. discriminate.
Qed.

(** While no live order has the id of a history row,
    [archive_completed_orders] archives exactly the live orders whose
    status is DONE, VOID, REFUNDED or PARTIALLY_REFUNDED and whose
    [created_at] is before the cutoff (24 hours before now): afterwards
    each of them has exactly one OrderHistory row and is gone from the
    live orders; every other live order stays live and has no history
    row. *)
Lemma archive_completed_orders_fresh_ids (db : Database) (now : Z) :
  NoDup (map o_id (tbl_orders db)) ->
  (forall o, In o (tbl_orders db) ->
             ~ In (o_id o) (map h_order_id (tbl_order_history db))) ->
  forall o, In o (tbl_orders db) ->
    let db' := fst (archive_completed_orders db now) in
    let h := insert_history now (OrderHistory_from_order o) in
    if is_completed (status o) && (created_at o <? now - 24 * 3600)
    then
      count_occ Z.eq_dec (map h_order_id (tbl_order_history db')) (o_id o)
      = 1%nat
      /\ In h (tbl_order_history db')
      /\ h_order_id h = o_id o
      /\ items_data h = map OrderItem_to_dict (items o)
      /\ discounts_data h = map OrderDiscount_to_dict (discounts o)
      /\ query_order db' (o_id o) = None
    else
      In o (tbl_orders db')
      /\ ~ In (o_id o) (map h_order_id (tbl_order_history db')).
Proof.
  intros Hnd Hfresh o Ho db' h. subst db'.
  pose proof (@among_completed db now o Hnd Ho) as Ham.
  destruct (is_completed (status o) && (created_at o <? now - 24 * 3600))
    eqn:E.
  - assert (Hin : In o (completed_orders db now))
      by (apply filter_In; split; assumption).
    rewrite archive_tbl_order_history, map_app, archived_ids.
    repeat split.
    + rewrite count_occ_app.
      replace (count_occ Z.eq_dec (map h_order_id (tbl_order_history db))
                 (o_id o)) with 0%nat
        by (symmetry; apply count_occ_not_In; apply Hfresh; exact Ho).
      simpl. apply NoDup_count_occ'.
      * apply distinct_ids_filter. exact Hnd.
      * apply in_map. exact Hin.
    + apply in_or_app. right. subst h.
      apply (in_map (fun o => insert_history now (OrderHistory_from_order o))).
      exact Hin.
    + unfold query_order.
      rewrite archive_tbl_orders. apply find_absent.
      intros r Hr. apply filter_In in Hr. destruct Hr as [Hr Hkeep].
      destruct (o_id r =? o_id o) eqn:Hid; [|reflexivity].
      apply Z.eqb_eq in Hid.
      rewrite (same_id_same_order _ _ _ Hnd Hr Ho Hid), Ham in Hkeep.
      discriminate.
  - split.
    + rewrite archive_tbl_orders.
      apply filter_In. split; [exact Ho|]. rewrite Ham. reflexivity.
    + exact (@kept_order_has_no_history db now o Hnd Hfresh Ho Ham).
Qed.

(** X9. Archival keeps the two facts it relies on: afterwards the ids of
    the live orders are still distinct and none of them has a history
    row. *)
Lemma archive_completed_orders_preserves (db : Database) (now : Z) :
  NoDup (map o_id (tbl_orders db)) ->
  (forall o, In o (tbl_orders db) ->
             ~ In (o_id o) (map h_order_id (tbl_order_history db))) ->
  let db' := fst (archive_completed_orders db now) in
  NoDup (map o_id (tbl_orders db'))
  /\ (forall o, In o (tbl_orders db') ->
                ~ In (o_id o) (map h_order_id (tbl_order_history db'))).
Proof.
  intros Hnd Hfresh db'. subst db'. split.
  - rewrite archive_tbl_orders. apply distinct_ids_filter. exact Hnd.
  - intros o Ho. rewrite archive_tbl_orders in Ho.
    apply filter_In in Ho. destruct Ho as [Ho Hkeep].
    apply negb_true_iff in Hkeep.
    exact (@kept_order_has_no_history db now o Hnd Hfresh Ho Hkeep).
Qed.

(** ** Pricing on the Order and Discount models *)

Lemma Order_calculate_card_fee_only_fee (o : Order) settings :
  exists fee, Order_calculate_card_fee o settings = set_card_fee o fee.
Proof.
  unfold Order_calculate_card_fee.
  destruct (payment_method o) as [[|]|]; try (eexists; reflexivity).
  destruct settings as [s|]; [|eexists; reflexivity].
  destruct (cfs_available s); eexists; reflexivity.
Qed.

(** [Order.calculate_total] leaves the order with the total the
    specification requires. *)
Lemma Order_calculate_total_spec (o : Order) settings :
  let o' := Order_calculate_total o settings in
  total o' = spec_total o'.
Proof.
  simpl. unfold Order_calculate_total, spec_total.
  destruct (Order_calculate_card_fee_only_fee o settings) as [fee ->].
  reflexivity.
Qed.

(** [Discount.calculate_discount_amount]: nothing for an unavailable
    discount or group, the rounded percentage of the subtotal, or the
    absolute flat amount. *)
Lemma Discount_calculate_discount_amount_spec (d : Discount) (sub : float) :
  (d_available d = false \/ dg_available (d_group d) = false ->
   Discount_calculate_discount_amount d sub = f0)
  /\ (d_available d = true -> dg_available (d_group d) = true ->
      Discount_calculate_discount_amount d sub
      = if d_is_percentage d
        then round2 (fdiv (fmul sub (d_amount d)) (of_int 100))
        else fabs (d_amount d)).
Proof.
  unfold Discount_calculate_discount_amount. split.
  - intros [-> | ->]; [reflexivity|]. rewrite orb_true_r. reflexivity.
  - intros -> ->. reflexivity.
Qed.

(** [Order.calculate_card_fee]: no fee unless the order is paid by card and
    the settings exist and are available; otherwise the rounded larger of
    the percentage of the base and the minimum fee. *)
Lemma Order_calculate_card_fee_spec (o : Order) settings :
  let fee := card_fee (Order_calculate_card_fee o settings) in
  match payment_method o, settings with
  | Some CARD, Some s =>
      if cfs_available s
      then fee
           = round2
               (py_max
                  (fmul (fadd (fsub (subtotal o) (Order_get_total_discount o))
                              (tax o))
                        (percentage_amount s))
                  (min_fee s))
      else fee = f0
  | _, _ => fee = f0
  end.
Proof.
  cbv zeta. unfold Order_calculate_card_fee.
  destruct (payment_method o) as [[|]|]; destruct settings as [s|];
    try reflexivity.
  destruct (cfs_available s); reflexivity.
Qed.

(** ** Order numbers *)

Lemma fold_max_attained (ns : list Z) (n : Z) :
  In (fold_left Z.max ns n) (n :: ns).
Proof.
  revert n. induction ns as [|a ns IH]; intros n; simpl; [left; reflexivity|].
  specialize (IH (Z.max n a)).
  destruct (Z.max_spec n a) as [[_ E] | [_ E]]; rewrite E in *;
    destruct IH as [H | H].
  - right. left. exact H.
  - right. right. exact H.
  - left. exact H.
  - right. right. exact H.
Qed.

Lemma last_order_number_attained (db : Database) (now last : Z) :
  last_order_number db now = Some last ->
  exists o, In o (tbl_orders db) /\ order_number o = last.
Proof.
  unfold last_order_number.
  destruct (map order_number
              (filter (fun o => today_start now <=? created_at o)
                      (tbl_orders db))) as [|n ns] eqn:E; [discriminate|].
  intros H. injection H as <-.
  pose proof (fold_max_attained ns n) as Hin. rewrite <- E in Hin.
  apply in_map_iff in Hin. destruct Hin as (o & Ho & Hin).
  exists o. split; [|exact Ho]. apply filter_In in Hin. apply Hin.
Qed.

(** X3. With no order created today the next number is 1. *)
Lemma get_next_order_number_empty_day (db : Database) (now : Z) :
  (forall o, In o (tbl_orders db) -> created_at o < today_start now) ->
  get_next_order_number db now = 1.
Proof.
  intros H. unfold get_next_order_number, last_order_number.
  replace (filter (fun o => today_start now <=? created_at o) (tbl_orders db))
    with (@nil Order); [reflexivity|].
  symmetry. induction (tbl_orders db) as [|a l IH]; simpl; [reflexivity|].
  replace (today_start now <=? created_at a) with false.
  - apply IH. intros o Ho. apply H. right. exact Ho.
  - symmetry. apply Z.leb_gt. apply H. left. reflexivity.
Qed.

(** X4. When the stored numbers are positive the next number is in
    [1, 99]. *)
Lemma get_next_order_number_range (db : Database) (now : Z) :
  (forall o, In o (tbl_orders db) -> 1 <= order_number o) ->
  1 <= get_next_order_number db now <= 99.
Proof.
  intros H. unfold get_next_order_number.
  destruct (last_order_number db now) as [last|] eqn:E; [|lia].
  destruct (last_order_number_attained _ _ E) as (o & Ho & <-).
  specialize (H o Ho).
  destruct (99 <? order_number o + 1) eqn:L; [lia|].
  apply Z.ltb_ge in L. lia.
Qed.

(** ** Looking up and committing an order *)

Lemma query_order_id (db : Database) (id : Z) (o : Order) :
  query_order db id = Some o -> o_id o = id.
Proof.
  unfold query_order. intros H. apply find_some in H.
  apply Z.eqb_eq. apply H.
Qed.

Lemma query_commit_order (db : Database) (id : Z) (o o' : Order) :
  query_order db id = Some o -> o_id o' = id ->
  query_order (commit_order db o') id = Some o'.
Proof.
  unfold query_order, commit_order. simpl. intros H Hid. subst id.
  induction (tbl_orders db) as [|a l IH]; simpl in *; [discriminate|].
  destruct (o_id a =? o_id o') eqn:E; simpl.
  - rewrite Z.eqb_refl. reflexivity.
  - rewrite E. apply IH. exact H.
Qed.

(** ** Broadcast *)

(** X20. Dictionaries built by [Order.to_dict] have no ["id"] key, so
    broadcasting one raises [KeyError] before anything is sent and leaves
    the registry as it is. *)
Lemma broadcast_order_update_to_dict (m : ConnectionManager) (o : Order) :
  broadcast_order_update m (Order_to_dict o) = (m, [], Raise (KeyError "id")).
Proof. reflexivity. Qed.

Lemma broadcast_loop_type t msg clients :
  Forall (fun d => to_type d = t) (fst (broadcast_loop t msg clients)).
Proof.
  induction clients as [|[c ws] clients IH]; simpl; [constructor|].
  destruct (broadcast_loop t msg clients) as [sent disconnected].
  destruct (send_json ws); simpl; [constructor; [reflexivity|]|]; exact IH.
Qed.

Lemma broadcast_to_type_type m t msg :
  Forall (fun d => to_type d = t) (snd (broadcast_to_type m t msg)).
Proof.
  unfold broadcast_to_type.
  pose proof (broadcast_loop_type t msg (connections m t)) as H.
  destruct (broadcast_loop t msg (connections m t)). exact H.
Qed.

Lemma send_to_client_type m t c msg :
  Forall (fun d => to_type d = t) (snd (send_to_client m t c msg)).
Proof.
  unfold send_to_client.
  destruct (dict_get c (connections m t)) as [ws|]; [|constructor].
  destruct (send_json ws); simpl; repeat constructor.
Qed.

Lemma customer_display_loop_type size order_id msg entries m :
  Forall (fun d => to_type d = CUSTOMER_DISPLAY)
         (snd (fst (customer_display_loop size order_id msg entries m))).
Proof.
  revert m. induction entries as [|[c orders] entries IH]; intros m;
    simpl; [constructor|].
  destruct (json_in_set order_id orders); [|apply IH].
  pose proof (send_to_client_type m CUSTOMER_DISPLAY c msg) as Hs.
  destruct (send_to_client m CUSTOMER_DISPLAY c msg) as [m1 sent].
  simpl in Hs.
  destruct (Nat.eqb (List.length (active_orders m1)) size); [|exact Hs].
  specialize (IH m1).
  destruct (customer_display_loop size order_id msg entries m1)
    as [[m2 sent2] r].
  simpl in *. apply Forall_app. split; assumption.
Qed.

(** X21. Kitchen displays receive an order update only when the
    ["status"] entry of the order is the string ["open"]. *)
Lemma broadcast_order_update_kitchen m order_data :
  json_is_str (dict_get "status" order_data) "open" = false ->
  Forall (fun d => to_type d <> KITCHEN_DISPLAY)
         (snd (fst (broadcast_order_update m order_data))).
Proof.
  intros Hst. unfold broadcast_order_update. rewrite Hst.
  destruct (dict_get "id" order_data) as [order_id|]; [|constructor].
  set (msg := [("type", JStr "order_update"); ("data", JDict order_data)]).
  pose proof (broadcast_to_type_type m POS msg) as H1.
  destruct (broadcast_to_type m POS msg) as [m1 sent_pos]. simpl in H1.
  pose proof (customer_display_loop_type
                (List.length (active_orders m1)) order_id msg
                (active_orders m1) m1) as H2.
  destruct (customer_display_loop (List.length (active_orders m1))
              order_id msg (active_orders m1) m1) as [[m2 sent_cd] r].
  simpl in H2.
  assert (H : Forall (fun d => to_type d <> KITCHEN_DISPLAY)
                     (sent_pos ++ sent_cd)).
  { apply Forall_app. split.
    - eapply Forall_impl; [|exact H1]. intros d ->. discriminate.
    - eapply Forall_impl; [|exact H2]. intros d ->. discriminate. }
  destruct r; exact H.
Qed.

End Properties.

(** * The functions on concrete inputs *)

(** C1. [calculate_order_totals] computes no total for an order that has
    items: for an order of one 10.00 item with 0.80 tax it raises
    [AttributeError] at [item.calculate_subtotal()], and the routes that
    would store its result, [add_item], [remove_item] and [update_order],
    raise before they reach it and leave the order as it was;
    [Order.calculate_total] on the same order gives 10.80, the total the
    specification requires. *)
Theorem calculate_order_totals_computes_no_total :
  let order := order_at 1 1 PREP None 960000 in
  let db := database_of [order] in
  calculate_order_totals db order None None (usd 0)
  = Raise (AttributeError "calculate_subtotal")
  /\ add_item db 1 sample_item = (Raise (AttributeError "OPEN"), db)
  /\ remove_item db 1 1 = (Raise (AttributeError "OPEN"), db)
  /\ update_order db 1 sample_update = (Raise (AttributeError "OPEN"), db)
  /\ total (Order_calculate_total order (query_card_fee_settings db))
     = usd 1080.
Proof.
  cbv zeta. repeat apply conj; vm_compute; reflexivity.
Qed.

(** C2. [calculate_order_totals] resolves no discount: asked for the flat
    discount 100001 it raises [AttributeError], at
    [item.calculate_subtotal()] for the order of one item and at
    [Discount.active] for an order without items, where
    [Discount.calculate_discount_amount] contributes 5.00 for that
    discount on a subtotal of 10.00. *)
Theorem calculate_order_totals_resolves_no_discount :
  let order := order_at 1 1 PREP None 960000 in
  let db := database_of [order] in
  calculate_order_totals db order (Some 100001) None (usd 0)
  = Raise (AttributeError "calculate_subtotal")
  /\ calculate_order_totals db (empty_order 2) (Some 100001) None (usd 0)
     = Raise (AttributeError "active")
  /\ Discount_calculate_discount_amount five_off (subtotal order) = usd 500.
Proof.
  cbv zeta. repeat apply conj; vm_compute; reflexivity.
Qed.

(** C3. [get_next_order_number] hands out a number that an active order
    holds: with order 99 completed and order 1 still in preparation, both
    created today, it returns 1, which [validate_order_number] reports as
    in use. *)
Theorem get_next_order_number_collides :
  let db := database_of [order_at 1 99 DONE (Some CASH) 960000;
                         order_at 2 1 PREP None 970000] in
  get_next_order_number db sample_now = 1
  /\ validate_order_number db 1 = false.
Proof.
  vm_compute. split; reflexivity.
Qed.

(** C4. [calculate_order_totals] computes no card fee: asked for card fee
    1 on an order paid by card it raises, at [item.calculate_subtotal()]
    for the order of one item and at the name [CardFee] for an order
    without items, where [Order.calculate_card_fee] sets
    round(max(10.80 x 0.05, 0.30), 2) = 0.54. *)
Theorem calculate_order_totals_computes_no_fee :
  let order := order_at 1 1 READY (Some CARD) 960000 in
  let db := database_of [order] in
  calculate_order_totals db order None (Some 1) (usd 0)
  = Raise (AttributeError "calculate_subtotal")
  /\ calculate_order_totals db (empty_order 2) None (Some 1) (usd 0)
     = Raise (NameError "CardFee")
  /\ card_fee (Order_calculate_card_fee order (query_card_fee_settings db))
     = usd 54.
Proof.
  cbv zeta. repeat apply conj; vm_compute; reflexivity.
Qed.

(** C5. [process_payment] moves a VOID order to DONE: a cash payment on a
    voided order is committed, a transition the specification does not
    allow. *)
Theorem process_payment_leaves_void :
  let db := database_of [order_at 1 5 VOID None 960000] in
  let db' := snd (process_payment db (cash_payment 1) true sample_now) in
  option_map status (query_order db 1) = Some VOID
  /\ option_map status (query_order db' 1) = Some DONE
  /\ spec_transition VOID DONE = false.
Proof.
  vm_compute. repeat split.
Qed.

(** C6. No item or discount can be added to an order in preparation: the
    route [apply_discount] with an available discount raises [NameError]
    inside [Order.apply_discount], and the route [add_item] raises
    [AttributeError] at its status guard; the order keeps its total of
    10.80 and gains no discount.  A DONE order gets the same two answers:
    neither route tells the states apart. *)
Theorem discount_and_item_routes_fail :
  let db := database_of [order_at 1 5 PREP None 960000] in
  let db_done := database_of [order_at 1 5 DONE (Some CASH) 960000] in
  apply_discount db 1 100001 = (Raise (NameError "OrderDiscount"), db)
  /\ add_item db 1 sample_item = (Raise (AttributeError "OPEN"), db)
  /\ apply_discount db_done 1 100001
     = (Raise (NameError "OrderDiscount"), db_done)
  /\ add_item db_done 1 sample_item
     = (Raise (AttributeError "OPEN"), db_done).
Proof.
  cbv zeta. repeat apply conj; vm_compute; reflexivity.
Qed.

(** C7. [broadcast_order_update] does not reach the kitchen display for an
    order in preparation: with a point-of-sale terminal and a kitchen
    display connected, the update of a PREP order is delivered to the
    terminal only. *)
Theorem broadcast_order_update_skips_kitchen :
  let order_data :=
    ("id", JInt 1) :: Order_to_dict (order_at 1 5 PREP None 960000) in
  dict_contains "kds-1" (connections sample_manager KITCHEN_DISPLAY) = true
  /\ dict_get "status" order_data = Some (JStr "prep")
  /\ map recipient (snd (fst (broadcast_order_update sample_manager order_data)))
     = [(POS, "pos-1")]
  /\ snd (broadcast_order_update sample_manager order_data) = Ok tt.
Proof.
  vm_compute. repeat split.
Qed.


(** Witness of C9: 25.00 tendered for a total of 23.63. *)
Lemma validate_payment_contract_witness :
  validate_payment "cash" (usd 2363) (Some (usd 2500))
  = Ok (fsub (usd 2500) (usd 2363))
  /\ validate_payment "cheque" (usd 2363) None
     = Raise (ValueError "Invalid payment method").
Proof.
  destruct (@validate_payment_contract Q_PyFloat (usd 2363))
    as (_ & _ & Hcash & Hother).
  split.
  - apply Hcash. reflexivity.
  - apply Hother; discriminate.
Defined.

(** Witness of C10: a terminal watching order 7; a display that never
    connected is disconnected, and order 8 is unwatched. *)
Lemma disconnect_and_unwatch_idempotent_witness :
  let m :=
    add_active_order
      (connect ConnectionManager_init {| ws_open := true |} POS "pos-1")
      "pos-1" 7 in
  disconnect m KITCHEN_DISPLAY "kds-9" = m
  /\ remove_active_order m "pos-1" 8 = m.
Proof.
  intros m.
  assert (Hm : @reachable Q_PyFloat m)
    by (apply reach_add_active_order, reach_connect, reach_init).
  destruct (@disconnect_and_unwatch_idempotent Q_PyFloat m Hm)
    as (Hd & Hr & _ & _).
  split.
  - apply Hd. intros t'. destruct t'; reflexivity.
  - apply Hr. intros orders H. vm_compute in H. injection H as <-.
    reflexivity.
Defined.

(** * Further properties of the code *)

Section Coverage.

Context {FP : PyFloat}.

(** ** Pricing *)

(** X1. Recomputing the total of an order a second time, with the same
    card fee settings, changes nothing. *)
Theorem Order_calculate_total_idempotent (o : Order) settings :
  Order_calculate_total (Order_calculate_total o settings) settings
  = Order_calculate_total o settings.
Proof.
  destruct o as [id num sid sname st sub tx fee tot [[|]|] nt sp sr cr ra da
                  rf its ds];
    destruct settings as [[[|] pct mn]|]; reflexivity.
Qed.

(** [Order.calculate_total] writes the card fee and the total and nothing
    else. *)
Lemma Order_calculate_total_frame (o : Order) settings :
  let o' := Order_calculate_total o settings in
  o' = set_total (set_card_fee o (card_fee o')) (total o').
Proof.
  cbv zeta. unfold Order_calculate_total.
  destruct (Order_calculate_card_fee_only_fee o settings) as [fee ->].
  reflexivity.
Qed.

(** X2. No discount is ever applied.  [Order.apply_discount] returns
    False for a discount that is unavailable or whose group is
    unavailable, and for every other discount it raises [NameError] at the
    constructor call, before the order is touched; the route
    [apply_discount] therefore answers every request with an error and
    commits nothing, and so does the route [remove_discount]. *)
Theorem Order_apply_discount_effect
    (db : Database) (order_id discount_id_ : Z)
    (o : Order) (d : Discount) settings :
  Order_apply_discount o d settings
  = (o, if d_available d && dg_available (d_group d)
        then Raise (NameError "OrderDiscount")
        else Ok false)
  /\ snd (apply_discount db order_id discount_id_) = db
  /\ (exists e, fst (apply_discount db order_id discount_id_) = Raise e)
  /\ snd (remove_discount db order_id discount_id_) = db
  /\ (exists e, fst (remove_discount db order_id discount_id_) = Raise e).
Proof.
  assert (H : forall o d,
             Order_apply_discount o d settings
             = (o, if d_available d && dg_available (d_group d)
                   then Raise (NameError "OrderDiscount")
                   else Ok false)).
  { intros o0 d0. unfold Order_apply_discount, new_OrderDiscount.
    destruct (d_available d0), (dg_available (d_group d0)); reflexivity. }
  split; [apply H|].
  unfold apply_discount, remove_discount.
  destruct (query_order db order_id) as [order|].
  - destruct (query_discount db discount_id_) as [discount|].
    + unfold Order_apply_discount, new_OrderDiscount.
      destruct (negb (d_available discount)
                || negb (dg_available (d_group discount)));
        cbn [fst snd negb]; repeat split; eexists; reflexivity.
    + cbn [fst snd]. repeat split; eexists; reflexivity.
  - cbn [fst snd]. repeat split; eexists; reflexivity.
Qed.

Lemma find_no_match {A} (f : A -> bool) (l : list A) :
  (forall x, In x l -> f x = false) -> find f l = None.
Proof.
  intros H. induction l as [|a l IH]; [reflexivity|]. simpl.
  rewrite (H a) by (left; reflexivity).
  apply IH. intros x Hx. apply H. right. exact Hx.
Qed.

(** [calculate_order_totals] returns only for an order without items and
    without discount or card fee id; every amount it then returns is zero
    and its total is the tip. *)
Lemma calculate_order_totals_returns
    (db : Database) (order : Order) (did cid : option Z) (tip : float)
    (t : OrderTotals) :
  calculate_order_totals db order did cid tip = Ok t ->
  items order = [] /\ truthy_int did = false /\ truthy_int cid = false
  /\ t_subtotal t = f0 /\ t_discount_amount t = f0
  /\ t_card_fee_amount t = f0
  /\ t_total t = fadd (fadd (fsub f0 f0) f0) tip.
Proof.
  unfold calculate_order_totals.
  destruct (items order) as [|it its]; [|discriminate].
  cbn [sum_of].
  destruct (truthy_int did); [discriminate|].
  destruct (truthy_int cid); [discriminate|].
  intros H. injection H as <-. repeat split.
Qed.

(** ** Order numbers *)

Lemma fold_max_ge_init (ns : list Z) (n : Z) :
  n <= fold_left Z.max ns n.
Proof.
  revert n. induction ns as [|a ns IH]; intros n; simpl; [lia|].
  specialize (IH (Z.max n a)). lia.
Qed.

Lemma fold_max_upper (ns : list Z) (n x : Z) :
  In x (n :: ns) -> x <= fold_left Z.max ns n.
Proof.
  revert n. induction ns as [|a ns IH]; intros n Hin.
  - destruct Hin as [-> | []]. simpl. lia.
  - simpl fold_left. destruct Hin as [-> | [-> | Hin]].
    + pose proof (fold_max_ge_init ns (Z.max x a)). lia.
    + pose proof (fold_max_ge_init ns (Z.max n x)). lia.
    + apply IH. right. exact Hin.
Qed.

Lemma last_order_number_today (db : Database) (now last : Z) :
  last_order_number db now = Some last ->
  (exists o, In o (tbl_orders db) /\ today_start now <= created_at o
             /\ order_number o = last)
  /\ (forall o, In o (tbl_orders db) -> today_start now <= created_at o ->
                order_number o <= last).
Proof.
  unfold last_order_number.
  set (today := filter (fun o => today_start now <=? created_at o)
                       (tbl_orders db)).
  destruct (map order_number today) as [|n ns] eqn:E; [discriminate|].
  intros H. injection H as <-. split.
  - pose proof (fold_max_attained ns n) as Hin. rewrite <- E in Hin.
    apply in_map_iff in Hin. destruct Hin as (o & Ho & Hin).
    apply filter_In in Hin. destruct Hin as [Hin Ht].
    exists o. repeat split; [exact Hin | apply Z.leb_le; exact Ht | exact Ho].
  - intros o Hin Ht. apply fold_max_upper. rewrite <- E.
    apply in_map. apply filter_In. split; [exact Hin|].
    apply Z.leb_le. exact Ht.
Qed.

(** X5. While today's order numbers are all below 99, the number
    [get_next_order_number] returns is greater than the number of every
    order created today, so it collides with none of them. *)
Theorem get_next_order_number_above_today (db : Database) (now : Z) :
  (forall o, In o (tbl_orders db) -> today_start now <= created_at o ->
             order_number o < 99) ->
  forall o, In o (tbl_orders db) -> today_start now <= created_at o ->
            order_number o < get_next_order_number db now.
Proof.
  intros Hlow o Hin Ht. unfold get_next_order_number.
  destruct (last_order_number db now) as [last|] eqn:E.
  - destruct (last_order_number_today _ _ E) as [(o' & Hin' & Ht' & <-) Hmax].
    specialize (Hlow o' Hin' Ht'). specialize (Hmax o Hin Ht).
    replace (99 <? order_number o' + 1) with false
      by (symmetry; apply Z.ltb_ge; lia).
    lia.
  - exfalso. unfold last_order_number in E.
    assert (Hin2 : In (order_number o)
                      (map order_number
                           (filter (fun o => today_start now <=? created_at o)
                                   (tbl_orders db)))).
    { apply in_map. apply filter_In. split; [exact Hin|].
      apply Z.leb_le. exact Ht. }
    destruct (map order_number
                (filter (fun o => today_start now <=? created_at o)
                        (tbl_orders db))); [contradiction | discriminate].
Qed.

(** X6. [validate_order_number] answers True exactly when no order in
    PREP or READY holds the number; completed orders do not count. *)
Theorem validate_order_number_iff (db : Database) (n : Z) :
  validate_order_number db n = true
  <-> forall o, In o (tbl_orders db) -> is_active (status o) = true ->
                order_number o <> n.
Proof.
  unfold validate_order_number. split.
  - destruct (find (fun o => (order_number o =? n) && is_active (status o))
                   (tbl_orders db)) eqn:E; [discriminate|].
    intros _ o Hin Hact Hn.
    pose proof (find_none _ _ E o Hin) as Hf. simpl in Hf.
    rewrite Hact, Hn, Z.eqb_refl in Hf. discriminate.
  - intros H. rewrite find_no_match; [reflexivity|].
    intros o Hin. destruct (order_number o =? n) eqn:E; [|reflexivity].
    destruct (is_active (status o)) eqn:Hact; [|reflexivity].
    apply Z.eqb_eq in E. exfalso. exact (H o Hin Hact E).
Qed.

(** ** Archival *)

Lemma filter_nothing {A} (f : A -> bool) (l : list A) :
  (forall x, In x l -> f x = false) -> filter f l = [].
Proof.
  intros H. induction l as [|a l IH]; [reflexivity|]. simpl.
  rewrite (H a) by (left; reflexivity).
  apply IH. intros x Hx. apply H. right. exact Hx.
Qed.

Lemma among_self (chosen : list Order) (o : Order) :
  In o chosen -> among chosen o = true.
Proof.
  intros H. apply existsb_exists. exists o. split; [exact H|].
  apply Z.eqb_refl.
Qed.

Lemma completed_after_archive (db : Database) (now : Z) :
  completed_orders (fst (archive_completed_orders db now)) now = [].
Proof.
  unfold completed_orders at 1. rewrite archive_tbl_orders, filter_twice.
  apply filter_nothing. intros o Ho.
  destruct (is_completed (status o) && (created_at o <? now - 24 * 3600))
    eqn:E; [|apply andb_false_r].
  rewrite among_self; [reflexivity|].
  apply filter_In. split; assumption.
Qed.

(** X7. Archival is idempotent: run again at the same instant it finds
    nothing to archive, reports 0 and leaves the database as it is. *)
Theorem archive_completed_orders_twice (db : Database) (now : Z) :
  archive_completed_orders (fst (archive_completed_orders db now)) now
  = (fst (archive_completed_orders db now), 0).
Proof.
  unfold archive_completed_orders at 1.
  rewrite completed_after_archive. reflexivity.
Qed.

Lemma filter_split_length {A} (f : A -> bool) (l : list A) :
  (List.length (filter f l)
   + List.length (filter (fun x => negb (f x)) l))%nat
  = List.length l.
Proof.
  induction l as [|a l IH]; [reflexivity|]. simpl.
  destruct (f a); simpl; lia.
Qed.

Lemma filter_agree {A} (f g : A -> bool) (l : list A) :
  (forall x, In x l -> f x = g x) -> filter f l = filter g l.
Proof.
  intros H. induction l as [|a l IH]; [reflexivity|]. simpl.
  rewrite (H a) by (left; reflexivity).
  rewrite IH; [reflexivity|]. intros x Hx. apply H. right. exact Hx.
Qed.

(** X8. The number [archive_completed_orders] returns is the number of
    history rows it appended, each stamped with the current instant; the
    rows already in the history are kept in place; and with distinct order
    ids every live order is afterwards either still live or counted as
    archived. *)
Theorem archive_completed_orders_count (db : Database) (now : Z) :
  NoDup (map o_id (tbl_orders db)) ->
  let db' := fst (archive_completed_orders db now) in
  let count := snd (archive_completed_orders db now) in
  (exists added,
      tbl_order_history db' = tbl_order_history db ++ added
      /\ Z.of_nat (List.length added) = count
      /\ Forall (fun h => h_archived_at h = Some now) added)
  /\ Z.of_nat (List.length (tbl_orders db')) + count
     = Z.of_nat (List.length (tbl_orders db)).
Proof.
  intros Hnd db' count.
  assert (Hcount : count = Z.of_nat (List.length (completed_orders db now))).
  { subst count. unfold archive_completed_orders.
    destruct (0 <? Z.of_nat (List.length (completed_orders db now)));
      reflexivity. }
  split.
  - exists (map (fun o => insert_history now (OrderHistory_from_order o))
                (completed_orders db now)).
    repeat split.
    + apply archive_tbl_order_history.
    + rewrite length_map. symmetry. exact Hcount.
    + apply Forall_forall. intros h Hh. apply in_map_iff in Hh.
      destruct Hh as (o & <- & _). reflexivity.
  - subst db'. rewrite archive_tbl_orders, Hcount.
    rewrite (filter_agree
               (fun r => negb (among (completed_orders db now) r))
               (fun r => negb (is_completed (status r)
                               && (created_at r <? now - 24 * 3600)))).
    + unfold completed_orders.
      pose proof (filter_split_length
                    (fun o => is_completed (status o)
                              && (created_at o <? now - 24 * 3600))
                    (tbl_orders db)) as H.
      lia.
    + intros r Hr. rewrite (@among_completed _ db now r Hnd Hr). reflexivity.
Qed.

(** ** Renumbering *)

Lemma insert_by_created_at_perm (o : Order) (l : list Order) :
  Permutation (insert_by_created_at o l) (o :: l).
Proof.
  induction l as [|x l IH]; simpl; [apply Permutation_refl|].
  destruct (created_at o <=? created_at x); [apply Permutation_refl|].
  apply perm_trans with (x :: o :: l); [|apply perm_swap].
  apply perm_skip. exact IH.
Qed.

Lemma order_by_created_at_perm (l : list Order) :
  Permutation (order_by_created_at l) l.
Proof.
  induction l as [|a l IH]; simpl; [apply perm_nil|].
  apply perm_trans with (a :: order_by_created_at l).
  - apply insert_by_created_at_perm.
  - apply perm_skip. exact IH.
Qed.

Lemma insert_by_created_at_sorted (o : Order) (l : list Order) :
  by_age l -> by_age (insert_by_created_at o l).
Proof.
  unfold by_age. induction l as [|x l IH]; intros Hs; simpl.
  - constructor; constructor.
  - destruct (created_at o <=? created_at x) eqn:E.
    + apply Z.leb_le in E. constructor; [exact Hs|].
      inversion Hs as [|? ? Hl Hx]; subst.
      constructor; [exact E|].
      eapply Forall_impl; [|exact Hx]. intros y Hy. simpl in *. lia.
    + apply Z.leb_gt in E.
      inversion Hs as [|? ? Hl Hx]; subst.
      constructor; [apply IH; exact Hl|].
      apply Forall_forall. intros y Hy.
      apply (Permutation_in _ (insert_by_created_at_perm o l)) in Hy.
      destruct Hy as [<- | Hy]; [lia|].
      exact (proj1 (Forall_forall _ _) Hx y Hy).
Qed.

Lemma order_by_created_at_sorted (l : list Order) :
  by_age (order_by_created_at l).
Proof.
  induction l as [|a l IH]; simpl; [constructor|].
  apply insert_by_created_at_sorted. exact IH.
Qed.

Lemma position_of_absent (start : Z) (l : list Order) (id : Z) :
  ~ In id (map o_id l) -> position_of start l id = None.
Proof.
  revert start. induction l as [|a l IH]; intros start H; [reflexivity|].
  simpl. destruct (o_id a =? id) eqn:E.
  - apply Z.eqb_eq in E. elim H. left. exact E.
  - apply IH. intros Hin. apply H. right. exact Hin.
Qed.

Lemma position_of_present (start : Z) (l : list Order) (id : Z) :
  In id (map o_id l) ->
  exists n, position_of start l id = Some n
            /\ start <= n < start + Z.of_nat (List.length l).
Proof.
  revert start. induction l as [|a l IH]; intros start H; [contradiction|].
  simpl position_of. simpl List.length.
  destruct (o_id a =? id) eqn:E.
  - exists start. split; [reflexivity | lia].
  - destruct H as [H | H]; [apply Z.eqb_neq in E; contradiction|].
    destruct (IH (start + 1) H) as (n & Hn & Hb).
    exists n. split; [exact Hn | lia].
Qed.

(** The rows after the assignments of [reset_order_numbers]. *)
Lemma tbl_orders_renumber (l : list (Z * Order)) (db : Database) :
  tbl_orders
    (fold_left
       (fun d io => commit_order d (set_order_number (snd io) (fst io)))
       l db)
  = fold_left
      (fun rows io =>
         map (fun r => if o_id r =? o_id (snd io)
                       then set_order_number (snd io) (fst io) else r)
             rows)
      l (tbl_orders db).
Proof.
  revert db. induction l as [|io l IH]; intros db; [reflexivity|].
  simpl. rewrite IH. reflexivity.
Qed.

Lemma renumber_rows (active : list Order) :
  forall (start : Z) (rows : list Order),
  NoDup (map o_id active) ->
  NoDup (map o_id rows) ->
  (forall o, In o active -> In o rows) ->
  fold_left
    (fun rows io =>
       map (fun r => if o_id r =? o_id (snd io)
                     then set_order_number (snd io) (fst io) else r)
           rows)
    (enumerate start active) rows
  = map (renumbered start active) rows.
Proof.
  induction active as [|a active IH]; intros start rows Hact Hrows Hsub.
  - simpl. symmetry. rewrite <- (map_id rows) at 2. reflexivity.
  - simpl fold_left. simpl fst. simpl snd.
    destruct (proj1 (NoDup_cons_iff (o_id a) (map o_id active)) Hact)
      as [Hfirst Hact'].
    clear Hact. rename Hact' into Hact.
    set (rows1 := map (fun r => if o_id r =? o_id a
                                then set_order_number a start else r) rows).
    assert (Hids : map o_id rows1 = map o_id rows).
    { subst rows1. rewrite map_map. apply map_ext. intros r.
      destruct (o_id r =? o_id a) eqn:E; [|reflexivity].
      apply Z.eqb_eq in E. simpl. congruence. }
    rewrite IH.
    + subst rows1. rewrite map_map. apply map_ext_in. intros r Hr.
      unfold renumbered. simpl position_of.
      destruct (o_id r =? o_id a) eqn:E.
      * apply Z.eqb_eq in E. simpl o_id.
        rewrite (@position_of_absent (start + 1) active (o_id a) Hfirst).
        rewrite Z.eqb_sym, (proj2 (Z.eqb_eq _ _) E).
        rewrite (same_id_same_order _ _ _ Hrows Hr
                   (Hsub a (or_introl eq_refl)) E).
        reflexivity.
      * rewrite Z.eqb_sym, E. reflexivity.
    + exact Hact.
    + rewrite Hids. exact Hrows.
    + intros o Ho. subst rows1. apply in_map_iff. exists o.
      split; [|apply Hsub; right; exact Ho].
      destruct (o_id o =? o_id a) eqn:E; [|reflexivity].
      apply Z.eqb_eq in E. elim Hfirst. rewrite <- E.
      apply in_map. exact Ho.
Qed.

Lemma archive_keeps_distinct_ids (db : Database) (now : Z) :
  NoDup (map o_id (tbl_orders db)) ->
  NoDup (map o_id (tbl_orders (fst (archive_completed_orders db now)))).
Proof.
  intros H. rewrite archive_tbl_orders. apply distinct_ids_filter. exact H.
Qed.

Lemma active_orders_by_age_perm (db : Database) :
  Permutation (active_orders_by_age db)
              (filter (fun o => is_active (status o)) (tbl_orders db)).
Proof. apply order_by_created_at_perm. Qed.

Lemma active_orders_by_age_distinct (db : Database) :
  NoDup (map o_id (tbl_orders db)) ->
  NoDup (map o_id (active_orders_by_age db)).
Proof.
  intros H.
  apply (Permutation_NoDup
           (l := map o_id (filter (fun o => is_active (status o))
                                  (tbl_orders db)))).
  - apply Permutation_map. apply Permutation_sym.
    apply active_orders_by_age_perm.
  - apply distinct_ids_filter. exact H.
Qed.

Lemma active_orders_by_age_in (db : Database) (o : Order) :
  In o (active_orders_by_age db)
  <-> In o (tbl_orders db) /\ is_active (status o) = true.
Proof.
  split; intros H.
  - apply (Permutation_in _ (active_orders_by_age_perm db)) in H.
    apply filter_In in H. exact H.
  - apply (Permutation_in _ (Permutation_sym (active_orders_by_age_perm db))).
    apply filter_In. exact H.
Qed.

(** The live orders after [reset_order_numbers]: the rows left by the
    archival, each active one with the number of its rank by age. *)
Lemma reset_order_numbers_rows (db : Database) (now : Z) :
  NoDup (map o_id (tbl_orders db)) ->
  let db1 := fst (archive_completed_orders db now) in
  tbl_orders (fst (reset_order_numbers db now))
  = map (renumbered 1 (active_orders_by_age db1)) (tbl_orders db1).
Proof.
  intros Hnd db1. unfold reset_order_numbers. cbn [fst].
  rewrite tbl_orders_renumber. fold db1.
  pose proof (@archive_keeps_distinct_ids db now Hnd) as Hnd1.
  fold db1 in Hnd1.
  apply renumber_rows.
  - apply active_orders_by_age_distinct. exact Hnd1.
  - exact Hnd1.
  - intros o Ho. apply active_orders_by_age_in in Ho. apply Ho.
Qed.

Lemma renumbered_status (start : Z) (l : list Order) (r : Order) :
  status (renumbered start l r) = status r.
Proof.
  unfold renumbered. destruct (position_of start l (o_id r)); reflexivity.
Qed.

Lemma renumbered_created_at (start : Z) (l : list Order) (r : Order) :
  created_at (renumbered start l r) = created_at r.
Proof.
  unfold renumbered. destruct (position_of start l (o_id r)); reflexivity.
Qed.

Lemma filter_active_renumbered (start : Z) (l rows : list Order) :
  filter (fun o => is_active (status o)) (map (renumbered start l) rows)
  = map (renumbered start l)
        (filter (fun o => is_active (status o)) rows).
Proof.
  induction rows as [|r rows IH]; [reflexivity|]. simpl.
  rewrite renumbered_status.
  destruct (is_active (status r)); simpl; rewrite IH; reflexivity.
Qed.

Lemma renumbered_numbers (l : list Order) :
  forall start,
  NoDup (map o_id l) ->
  map (fun r => order_number (renumbered start l r)) l
  = map (fun k => start + Z.of_nat k) (seq 0 (List.length l)).
Proof.
  induction l as [|a l IH]; intros start Hnd; [reflexivity|].
  destruct (proj1 (NoDup_cons_iff (o_id a) (map o_id l)) Hnd)
    as [Hfirst Hrest].
  simpl map. simpl List.length. simpl seq. simpl map. f_equal.
  - unfold renumbered. simpl. rewrite Z.eqb_refl. simpl. lia.
  - rewrite <- seq_shift, map_map.
    rewrite <- (map_ext (fun k => (start + 1) + Z.of_nat k))
      by (intros k; lia).
    rewrite <- (IH (start + 1) Hrest).
    apply map_ext_in. intros r Hr. unfold renumbered. simpl.
    destruct (o_id a =? o_id r) eqn:E; [|reflexivity].
    apply Z.eqb_eq in E. elim Hfirst. rewrite E. apply in_map. exact Hr.
Qed.

(** X10. After [reset_order_numbers] the active orders carry the numbers
    1, 2, ..., N, each exactly once, where N is the number of active
    orders. *)
Theorem reset_order_numbers_numbering (db : Database) (now : Z) :
  NoDup (map o_id (tbl_orders db)) ->
  let active :=
    filter (fun o => is_active (status o))
           (tbl_orders (fst (reset_order_numbers db now))) in
  Permutation (map order_number active)
              (map Z.of_nat (seq 1 (List.length active))).
Proof.
  intros Hnd active. subst active.
  rewrite (reset_order_numbers_rows db now Hnd).
  set (db1 := fst (archive_completed_orders db now)).
  set (A := active_orders_by_age db1).
  rewrite filter_active_renumbered, length_map, map_map.
  pose proof (active_orders_by_age_perm db1) as Hperm. fold A in Hperm.
  rewrite <- (Permutation_length Hperm).
  apply perm_trans
    with (map (fun r => order_number (renumbered 1 A r)) A).
  - apply Permutation_map. apply Permutation_sym. exact Hperm.
  - rewrite renumbered_numbers.
    + rewrite <- seq_shift, map_map.
      rewrite (map_ext (fun k => 1 + Z.of_nat k)
                       (fun k => Z.of_nat (S k)))
        by (intros k; lia).
      apply Permutation_refl.
    + apply active_orders_by_age_distinct.
      apply archive_keeps_distinct_ids. exact Hnd.
Qed.

Lemma position_of_lower (l : list Order) :
  forall start id n, position_of start l id = Some n -> start <= n.
Proof.
  induction l as [|a l IH]; intros start id n H; [discriminate|].
  simpl in H. destruct (o_id a =? id).
  - injection H as <-. lia.
  - apply IH in H. lia.
Qed.

Lemma position_of_by_age (l : list Order) :
  forall start a b na nb,
  by_age l -> NoDup (map o_id l) -> In a l -> In b l ->
  created_at a < created_at b ->
  position_of start l (o_id a) = Some na ->
  position_of start l (o_id b) = Some nb ->
  na < nb.
Proof.
  induction l as [|h l IH]; intros start a b na nb Hs Hnd Ha Hb Hlt Hpa Hpb;
    [contradiction|].
  inversion Hs as [|? ? Hsl Hh]; subst.
  destruct (proj1 (NoDup_cons_iff (o_id h) (map o_id l)) Hnd)
    as [Hfirst Hrest].
  simpl in Hpa, Hpb.
  destruct (o_id h =? o_id a) eqn:Ea.
  - injection Hpa as <-.
    destruct (o_id h =? o_id b) eqn:Eb.
    + apply Z.eqb_eq in Ea, Eb.
      assert (a = b)
        by (apply (same_id_same_order _ _ _ Hnd Ha Hb); congruence).
      subst b. lia.
    + apply position_of_lower in Hpb. lia.
  - destruct (o_id h =? o_id b) eqn:Eb.
    + apply Z.eqb_eq in Eb. apply Z.eqb_neq in Ea.
      assert (h = b)
        by (apply (same_id_same_order _ _ _ Hnd (or_introl eq_refl) Hb Eb)).
      subst h. destruct Ha as [Ha | Ha]; [congruence|].
      pose proof (proj1 (Forall_forall _ _) Hh a Ha) as Hle. simpl in Hle.
      lia.
    + apply Z.eqb_neq in Ea, Eb.
      destruct Ha as [Ha | Ha]; [congruence|].
      destruct Hb as [Hb | Hb]; [congruence|].
      exact (IH (start + 1) a b na nb Hsl Hrest Ha Hb Hlt Hpa Hpb).
Qed.

(** X11. [reset_order_numbers] numbers the active orders by age: of two
    active orders the one created earlier gets the smaller number. *)
Theorem reset_order_numbers_by_age (db : Database) (now : Z) :
  NoDup (map o_id (tbl_orders db)) ->
  forall a b,
    In a (tbl_orders (fst (reset_order_numbers db now))) ->
    In b (tbl_orders (fst (reset_order_numbers db now))) ->
    is_active (status a) = true -> is_active (status b) = true ->
    created_at a < created_at b ->
    order_number a < order_number b.
Proof.
  intros Hnd a b Ha Hb Hsa Hsb Hlt.
  rewrite (reset_order_numbers_rows db now Hnd) in Ha, Hb.
  set (db1 := fst (archive_completed_orders db now)) in *.
  set (A := active_orders_by_age db1) in *.
  apply in_map_iff in Ha. destruct Ha as (ra & <- & Hra).
  apply in_map_iff in Hb. destruct Hb as (rb & <- & Hrb).
  rewrite renumbered_status in Hsa, Hsb.
  rewrite !renumbered_created_at in Hlt.
  assert (HA : NoDup (map o_id A)).
  { apply active_orders_by_age_distinct.
    apply archive_keeps_distinct_ids. exact Hnd. }
  assert (Hina : In ra A) by (apply active_orders_by_age_in; split; assumption).
  assert (Hinb : In rb A) by (apply active_orders_by_age_in; split; assumption).
  destruct (@position_of_present 1 A (o_id ra) (in_map o_id _ _ Hina))
    as (na & Hna & _).
  destruct (@position_of_present 1 A (o_id rb) (in_map o_id _ _ Hinb))
    as (nb & Hnb & _).
  unfold renumbered. rewrite Hna, Hnb. simpl.
  exact (@position_of_by_age A 1 ra rb na nb
           (order_by_created_at_sorted _) HA Hina Hinb Hlt Hna Hnb).
Qed.

Lemma renumber_keeps_history (l : list (Z * Order)) (db : Database) :
  tbl_order_history
    (fold_left
       (fun d io => commit_order d (set_order_number (snd io) (fst io)))
       l db)
  = tbl_order_history db.
Proof.
  revert db. induction l as [|io l IH]; intros db; [reflexivity|].
  simpl. rewrite IH. reflexivity.
Qed.

(** X12. [reset_order_numbers] changes order numbers only: the rows left
    by its archival keep their place and every other column, orders that
    are not active keep their number too, and the history is the one the
    archival left. *)
Theorem reset_order_numbers_frame (db : Database) (now : Z) :
  NoDup (map o_id (tbl_orders db)) ->
  let db1 := fst (archive_completed_orders db now) in
  let db' := fst (reset_order_numbers db now) in
  map (fun r => set_order_number r 0) (tbl_orders db')
  = map (fun r => set_order_number r 0) (tbl_orders db1)
  /\ (forall r, In r (tbl_orders db1) -> is_active (status r) = false ->
                In r (tbl_orders db'))
  /\ tbl_order_history db' = tbl_order_history db1.
Proof.
  intros Hnd db1 db'. subst db'.
  rewrite (reset_order_numbers_rows db now Hnd). fold db1.
  set (A := active_orders_by_age db1).
  repeat split.
  - rewrite map_map. apply map_ext. intros r. unfold renumbered.
    destruct (position_of 1 A (o_id r)); reflexivity.
  - intros r Hr Hst. apply in_map_iff. exists r. split; [|exact Hr].
    unfold renumbered. rewrite position_of_absent; [reflexivity|].
    intros Hin. apply in_map_iff in Hin. destruct Hin as (o & Hid & Ho).
    apply active_orders_by_age_in in Ho. destruct Ho as [Ho Hact].
    pose proof (@archive_keeps_distinct_ids db now Hnd) as Hnd1.
    fold db1 in Hnd1.
    rewrite (same_id_same_order _ _ _ Hnd1 Ho Hr Hid) in Hact.
    rewrite Hact in Hst. discriminate.
  - unfold reset_order_numbers. cbn [fst]. apply renumber_keeps_history.
Qed.

Lemma among_true (chosen : list Order) (r : Order) :
  among chosen r = true <-> exists c, In c chosen /\ o_id c = o_id r.
Proof.
  unfold among. rewrite existsb_exists. split.
  - intros (c & Hc & Hid). exists c. split; [exact Hc|].
    apply Z.eqb_eq. exact Hid.
  - intros (c & Hc & Hid). exists c. split; [exact Hc|].
    apply Z.eqb_eq. exact Hid.
Qed.

Lemma among_app_like (rows : list Order) (p1 p2 : Order -> bool) (r : Order) :
  (forall o, p1 o = true -> p2 o = true) ->
  among (filter p2 rows) r
  = among (filter p1 rows) r
    || among (filter p2 (filter (fun o => negb (among (filter p1 rows) o))
                                rows)) r.
Proof.
  intros Himp. apply eq_true_iff_eq.
  rewrite orb_true_iff, !among_true. split.
  - intros (c & Hc & Hid). apply filter_In in Hc. destruct Hc as [Hc Hp].
    destruct (among (filter p1 rows) c) eqn:E.
    + left. apply among_true in E. destruct E as (c1 & Hc1 & Hid1).
      exists c1. split; [exact Hc1 | congruence].
    + right. exists c. split; [|exact Hid].
      apply filter_In. split; [|exact Hp].
      apply filter_In. split; [exact Hc|]. rewrite E. reflexivity.
  - intros [(c & Hc & Hid) | (c & Hc & Hid)].
    + apply filter_In in Hc. destruct Hc as [Hc Hp].
      exists c. split; [|exact Hid]. apply filter_In.
      split; [exact Hc | apply Himp; exact Hp].
    + apply filter_In in Hc. destruct Hc as [Hc Hp].
      apply filter_In in Hc. destruct Hc as [Hc _].
      exists c. split; [|exact Hid]. apply filter_In. split; assumption.
Qed.

Lemma archive_after_archive_rows (db : Database) (now1 now2 : Z) :
  now1 <= now2 ->
  tbl_orders
    (fst (archive_completed_orders
            (fst (archive_completed_orders db now1)) now2))
  = tbl_orders (fst (archive_completed_orders db now2)).
Proof.
  intros Hle. rewrite !archive_tbl_orders.
  unfold completed_orders. rewrite !archive_tbl_orders.
  unfold completed_orders. rewrite filter_twice.
  apply filter_ext. intros r.
  rewrite (@among_app_like (tbl_orders db)
             (fun o => is_completed (status o)
                       && (created_at o <? now1 - 24 * 3600))
             (fun o => is_completed (status o)
                       && (created_at o <? now2 - 24 * 3600)) r).
  - rewrite negb_orb. reflexivity.
  - intros o Ho. apply andb_prop in Ho. destruct Ho as [-> Ho].
    apply Z.ltb_lt in Ho. simpl. apply Z.ltb_lt. lia.
Qed.

(** X13. The first archival of [daily_order_cleanup] is subsumed by the
    one inside [reset_order_numbers]: when the clock does not run
    backwards between the two steps, the cleanup leaves the same live
    orders, with the same numbers, as [reset_order_numbers] alone. *)
Theorem daily_order_cleanup_live_orders (db : Database) (now1 now2 : Z) :
  now1 <= now2 ->
  tbl_orders (fst (daily_order_cleanup db now1 now2))
  = tbl_orders (fst (reset_order_numbers db now2)).
Proof.
  intros Hle. unfold daily_order_cleanup, reset_order_numbers. cbn [fst].
  rewrite !tbl_orders_renumber. unfold active_orders_by_age.
  rewrite (@archive_after_archive_rows db now1 now2 Hle). reflexivity.
Qed.

(** ** The connection registry *)

Lemma dict_del_set_absent {V} (k : string) (v : V) (d : dict V) :
  dict_contains k d = false -> dict_del k (dict_set k v d) = d.
Proof.
  unfold dict_contains, dict_del.
  induction d as [|[k' w] d IH]; simpl.
  - intros _. rewrite String.eqb_refl. reflexivity.
  - destruct (String.eqb k' k) eqn:E; simpl; [discriminate|].
    intros H. rewrite E. simpl. rewrite (IH H). reflexivity.
Qed.

Lemma dict_get_set_other {V} (k k' : string) (v : V) (d : dict V) :
  k' <> k -> dict_get k' (dict_set k v d) = dict_get k' d.
Proof.
  intros Hne. unfold dict_get.
  induction d as [|[k0 w] d IH]; simpl.
  - apply String.eqb_neq in Hne. rewrite String.eqb_sym, Hne. reflexivity.
  - destruct (String.eqb k0 k) eqn:E; simpl.
    + apply String.eqb_eq in E. subst k0.
      apply String.eqb_neq in Hne. rewrite String.eqb_sym, Hne.
      reflexivity.
    + destruct (String.eqb k0 k'); [reflexivity|]. exact IH.
Qed.

(** X14. Connecting a client that is registered nowhere and disconnecting
    it again gives back the registry and the watched sets as they were. *)
Theorem connect_then_disconnect (m : ConnectionManager) (ws : WebSocket)
    (t : ClientType) (c : string) :
  dict_contains c (connections m t) = false ->
  dict_contains c (active_orders m) = false ->
  disconnect (connect m ws t c) t c = m.
Proof.
  intros Hc Ha. destruct m as [p cd kd ao]; destruct t; simpl in Hc, Ha;
    unfold disconnect, connect; simpl;
    rewrite !dict_contains_set, !String.eqb_refl; simpl;
    rewrite !dict_contains_set, !String.eqb_refl; simpl;
    rewrite !dict_del_set_absent by assumption; reflexivity.
Qed.

Lemma set_contains_add (x : Z) (s : list Z) :
  set_contains x (set_add x s) = true.
Proof.
  unfold set_add. destruct (set_contains x s) eqn:E; [exact E|].
  unfold set_contains. rewrite existsb_app. simpl.
  rewrite Z.eqb_refl. apply orb_true_r.
Qed.

Lemma set_discard_add (x : Z) (s : list Z) :
  set_contains x s = false -> set_discard x (set_add x s) = s.
Proof.
  intros H. unfold set_add. rewrite H. unfold set_discard.
  rewrite filter_app. simpl. rewrite Z.eqb_refl. simpl.
  rewrite app_nil_r. apply set_discard_absent. exact H.
Qed.

Lemma set_add_twice (x : Z) (s : list Z) :
  set_add x (set_add x s) = set_add x s.
Proof.
  unfold set_add at 1. rewrite set_contains_add. reflexivity.
Qed.

(** X15. Watching an order twice is watching it once, and unwatching an
    order right after starting to watch it restores the watched sets. *)
Theorem watch_then_unwatch (m : ConnectionManager) (c : string) (o : Z) :
  add_active_order (add_active_order m c o) c o = add_active_order m c o
  /\ ((forall orders, dict_get c (active_orders m) = Some orders ->
                      set_contains o orders = false) ->
      remove_active_order (add_active_order m c o) c o = m).
Proof.
  unfold add_active_order, remove_active_order.
  destruct (dict_get c (active_orders m)) as [orders|] eqn:E.
  - split.
    + cbn [active_orders set_active_orders].
      rewrite dict_get_set, dict_set_set, set_add_twice. reflexivity.
    + intros H. cbn [active_orders set_active_orders].
      rewrite dict_get_set, dict_set_set.
      rewrite (@set_discard_add o orders (H orders eq_refl)).
      rewrite (@dict_set_same _ c orders (active_orders m) E).
      destruct m; reflexivity.
  - rewrite E. split; [reflexivity|]. intros _. reflexivity.
Qed.

(** X16. After [connect] the client's socket is the one just given and
    its watched set is empty, whatever it watched before; the entries of
    every other client are as they were. *)
Theorem connect_registers (m : ConnectionManager) (ws : WebSocket)
    (t : ClientType) (c : string) :
  let m' := connect m ws t c in
  dict_get c (connections m' t) = Some ws
  /\ dict_get c (active_orders m') = Some []
  /\ (forall c' t', c' <> c ->
        dict_get c' (connections m' t') = dict_get c' (connections m t')
        /\ dict_get c' (active_orders m') = dict_get c' (active_orders m)).
Proof.
  cbv zeta. unfold connect.
  rewrite !connections_set_active_orders. simpl active_orders.
  rewrite active_orders_set_connections. repeat split.
  - rewrite connections_set_connections.
    destruct t; apply dict_get_set.
  - apply dict_get_set.
  - rewrite connections_set_active_orders, connections_set_connections.
    destruct t, t'; try reflexivity; apply dict_get_set_other; exact H.
  - apply dict_get_set_other. exact H.
Qed.

Lemma dict_without_del {V} (c : string) (cs : list string) (d : dict V) :
  dict_without cs (dict_del c d) = dict_without (c :: cs) d.
Proof.
  unfold dict_without, dict_del. rewrite filter_twice.
  apply filter_ext. intros kv. simpl. rewrite negb_orb. reflexivity.
Qed.

Lemma dict_without_nil {V} (d : dict V) : dict_without [] d = d.
Proof. unfold dict_without. apply filter_all. reflexivity. Qed.

Lemma ClientType_eqb_match {A} (t t' : ClientType) (x y : A) :
  match t, t' with
  | POS, POS | CUSTOMER_DISPLAY, CUSTOMER_DISPLAY
  | KITCHEN_DISPLAY, KITCHEN_DISPLAY => x
  | _, _ => y
  end = if ClientType_eqb t t' then x else y.
Proof. destruct t, t'; reflexivity. Qed.

Lemma connections_disconnect_all (cs : list string) :
  forall m t t',
  connections (disconnect_all m t cs) t'
  = if ClientType_eqb t t'
    then dict_without cs (connections m t')
    else connections m t'.
Proof.
  induction cs as [|c cs IH]; intros m t t'.
  - simpl. rewrite dict_without_nil.
    destruct (ClientType_eqb t t'); reflexivity.
  - change (disconnect_all m t (c :: cs))
      with (disconnect_all (disconnect m t c) t cs).
    rewrite IH, connections_disconnect.
    destruct t, t'; simpl; try reflexivity; apply dict_without_del.
Qed.

Lemma active_orders_disconnect_all (cs : list string) :
  forall m t,
  active_orders (disconnect_all m t cs) = dict_without cs (active_orders m).
Proof.
  induction cs as [|c cs IH]; intros m t.
  - simpl. rewrite dict_without_nil. reflexivity.
  - change (disconnect_all m t (c :: cs))
      with (disconnect_all (disconnect m t c) t cs).
    rewrite IH, active_orders_disconnect. apply dict_without_del.
Qed.

Lemma broadcast_loop_result (t : ClientType) (msg : dict JSON)
    (clients : dict WebSocket) :
  broadcast_loop t msg clients
  = (map (deliver t msg) (open_clients clients),
     map (pair t) (closed_ids clients)).
Proof.
  unfold open_clients, closed_ids.
  induction clients as [|[c ws] clients IH]; [reflexivity|].
  simpl. rewrite IH. unfold send_json.
  destruct (ws_open ws); reflexivity.
Qed.

Lemma disconnect_pairs (t : ClientType) (cs : list string) :
  forall m,
  fold_left (fun m' tc => disconnect m' (fst tc) (snd tc)) (map (pair t) cs) m
  = disconnect_all m t cs.
Proof.
  induction cs as [|c cs IH]; intros m; [reflexivity|].
  simpl. apply IH.
Qed.

Lemma broadcast_to_type_result (m : ConnectionManager) (t : ClientType)
    (msg : dict JSON) :
  broadcast_to_type m t msg
  = (disconnect_all m t (closed_ids (connections m t)),
     map (deliver t msg) (open_clients (connections m t))).
Proof.
  unfold broadcast_to_type. rewrite broadcast_loop_result, disconnect_pairs.
  reflexivity.
Qed.

(** X17. [broadcast_to_type] delivers the message once to every client of
    that type whose socket is open, in registration order, whether or not
    other sends fail; the clients whose send failed are then dropped from
    that type's registry and lose their watched sets, and the registries of
    the other types are untouched. *)
Theorem broadcast_to_type_delivery (m : ConnectionManager) (t : ClientType)
    (msg : dict JSON) :
  let m' := fst (broadcast_to_type m t msg) in
  let failed := closed_ids (connections m t) in
  snd (broadcast_to_type m t msg)
  = map (deliver t msg) (open_clients (connections m t))
  /\ connections m' t = dict_without failed (connections m t)
  /\ active_orders m' = dict_without failed (active_orders m)
  /\ (forall t', t' <> t -> connections m' t' = connections m t').
Proof.
  cbv zeta. rewrite broadcast_to_type_result. cbn [fst snd].
  repeat split.
  - rewrite connections_disconnect_all.
    destruct t; reflexivity.
  - apply active_orders_disconnect_all.
  - intros t' Hne. rewrite connections_disconnect_all.
    destruct t, t'; try reflexivity; elim Hne; reflexivity.
Qed.

Lemma open_clients_all (d : dict WebSocket) :
  Forall (fun kv => ws_open (snd kv) = true) d ->
  open_clients d = d /\ closed_ids d = [].
Proof.
  intros H. unfold open_clients, closed_ids. split.
  - apply filter_all. intros kv Hkv.
    exact (proj1 (Forall_forall _ _) H kv Hkv).
  - rewrite filter_nothing; [reflexivity|]. intros kv Hkv.
    rewrite (proj1 (Forall_forall _ _) H kv Hkv). reflexivity.
Qed.

Lemma broadcast_to_type_all_open (m : ConnectionManager) (t : ClientType)
    (msg : dict JSON) :
  Forall (fun kv => ws_open (snd kv) = true) (connections m t) ->
  broadcast_to_type m t msg = (m, map (deliver t msg) (connections m t)).
Proof.
  intros H. rewrite broadcast_to_type_result.
  destruct (open_clients_all H) as [-> ->]. reflexivity.
Qed.

Lemma dict_get_in {V} (k : string) (v : V) (d : dict V) :
  dict_get k d = Some v -> In (k, v) d.
Proof.
  unfold dict_get. induction d as [|[k' w] d IH]; simpl; [discriminate|].
  destruct (String.eqb k' k) eqn:E; simpl.
  - intros H. injection H as ->. apply String.eqb_eq in E. subst k'.
    left. reflexivity.
  - intros H. right. exact (IH H).
Qed.

Lemma dict_get_none {V} (k : string) (d : dict V) :
  dict_get k d = None -> dict_contains k d = false.
Proof.
  unfold dict_get, dict_contains.
  induction d as [|[k' w] d IH]; simpl; [reflexivity|].
  destruct (String.eqb k' k); simpl; [discriminate | exact IH].
Qed.

Lemma in_dict_contains {V} (k : string) (v : V) (d : dict V) :
  In (k, v) d -> dict_contains k d = true.
Proof.
  intros H. apply existsb_exists. exists (k, v). split; [exact H|].
  apply String.eqb_refl.
Qed.

Lemma customer_display_loop_all_open
    (n : Z) (msg : dict JSON) (m : ConnectionManager)
    (entries : dict (list Z)) :
  Forall (fun kv => ws_open (snd kv) = true)
         (connections m CUSTOMER_DISPLAY) ->
  customer_display_loop (List.length (active_orders m)) (JInt n) msg
                        entries m
  = (m,
     map (deliver CUSTOMER_DISPLAY msg)
         (filter (fun e => set_contains n (snd e)
                           && dict_contains (fst e)
                                (connections m CUSTOMER_DISPLAY))
                 entries),
     Ok tt).
Proof.
  intros Hopen. induction entries as [|[c orders] entries IH];
    [reflexivity|].
  cbn [customer_display_loop json_in_set filter fst snd].
  destruct (set_contains n orders); cbn [andb]; [|exact IH].
  unfold send_to_client.
  destruct (dict_get c (connections m CUSTOMER_DISPLAY)) as [ws|] eqn:E.
  - rewrite (dict_get_contains _ _ E).
    pose proof (proj1 (Forall_forall _ _) Hopen _ (dict_get_in _ _ E))
      as Hws. cbn [snd] in Hws.
    unfold send_json. rewrite Hws, Nat.eqb_refl, IH. reflexivity.
  - rewrite (dict_get_none _ _ E), Nat.eqb_refl, IH. reflexivity.
Qed.

(** X18. While every socket is open, [broadcast_order_update] of an order
    whose ["id"] is present returns normally, leaves the registry as it
    is, and delivers the update to every point-of-sale client, then to
    every customer display watching that order, then - only if the status
    entry is ["open"] - to every kitchen display; each client gets it
    once. *)
Theorem broadcast_order_update_all_open
    (m : ConnectionManager) (order_data : dict JSON) (n : Z) :
  (forall t, Forall (fun kv => ws_open (snd kv) = true) (connections m t)) ->
  dict_get "id" order_data = Some (JInt n) ->
  let msg := [("type", JStr "order_update"); ("data", JDict order_data)] in
  broadcast_order_update m order_data
  = (m,
     map (deliver POS msg) (connections m POS)
     ++ map (deliver CUSTOMER_DISPLAY msg) (watching_displays m n)
     ++ (if json_is_str (dict_get "status" order_data) "open"
         then map (deliver KITCHEN_DISPLAY msg)
                  (connections m KITCHEN_DISPLAY)
         else []),
     Ok tt).
Proof.
  intros Hopen Hid msg. unfold broadcast_order_update. rewrite Hid.
  fold msg. rewrite (@broadcast_to_type_all_open m POS msg (Hopen POS)).
  rewrite (@customer_display_loop_all_open n msg m (active_orders m)
             (Hopen CUSTOMER_DISPLAY)).
  fold (watching_displays m n).
  destruct (json_is_str (dict_get "status" order_data) "open").
  - rewrite (@broadcast_to_type_all_open m KITCHEN_DISPLAY msg
               (Hopen KITCHEN_DISPLAY)).
    reflexivity.
  - rewrite app_nil_r. reflexivity.
Qed.

Lemma dict_del_shorter {V} (k : string) (d : dict V) :
  dict_contains k d = true ->
  (List.length (dict_del k d) < List.length d)%nat.
Proof.
  unfold dict_contains, dict_del.
  induction d as [|[k' w] d IH]; simpl; [discriminate|].
  destruct (String.eqb k' k) eqn:E; simpl.
  - intros _.
    pose proof (filter_length_le
                  (fun kv : string * V => negb (String.eqb (fst kv) k)) d).
    lia.
  - intros H. specialize (IH H). lia.
Qed.

Lemma customer_display_loop_aborts
    (n : Z) (msg : dict JSON) (m : ConnectionManager)
    (entries : dict (list Z)) :
  incl entries (active_orders m) ->
  (exists c orders ws,
      In (c, orders) entries /\ set_contains n orders = true
      /\ dict_get c (connections m CUSTOMER_DISPLAY) = Some ws
      /\ ws_open ws = false) ->
  snd (customer_display_loop (List.length (active_orders m)) (JInt n) msg
                             entries m)
  = Raise (RuntimeError "dictionary changed size during iteration").
Proof.
  induction entries as [|[c0 orders0] entries IH]; intros Hincl Hbad.
  - destruct Hbad as (c & orders & ws & [] & _).
  - assert (Hrest : incl entries (active_orders m))
      by (intros e He; apply Hincl; right; exact He).
    simpl. destruct (set_contains n orders0) eqn:Hw.
    + unfold send_to_client.
      destruct (dict_get c0 (connections m CUSTOMER_DISPLAY)) as [ws0|] eqn:E.
      * unfold send_json. destruct (ws_open ws0) eqn:Ho.
        -- rewrite Nat.eqb_refl.
           assert (H : snd (customer_display_loop
                              (List.length (active_orders m)) (JInt n) msg
                              entries m)
                       = Raise (RuntimeError
                                  "dictionary changed size during iteration")).
           { apply IH; [exact Hrest|].
             destruct Hbad as (c & orders & ws & [Heq | Hin] & H1 & H2 & H3).
             - injection Heq as <- <-. rewrite E in H2. injection H2 as <-.
               rewrite Ho in H3. discriminate.
             - exists c, orders, ws. repeat split; assumption. }
           destruct (customer_display_loop (List.length (active_orders m))
                       (JInt n) msg entries m) as [[m2 sent2] r].
           exact H.
        -- rewrite active_orders_disconnect.
           assert (Hc : dict_contains c0 (active_orders m) = true).
           { apply (in_dict_contains c0 orders0).
             apply Hincl. left. reflexivity. }
           pose proof (dict_del_shorter _ _ Hc) as Hlt.
           replace (Nat.eqb (List.length (dict_del c0 (active_orders m)))
                            (List.length (active_orders m))) with false
             by (symmetry; apply Nat.eqb_neq; lia).
           reflexivity.
      * rewrite Nat.eqb_refl.
        assert (H : snd (customer_display_loop
                           (List.length (active_orders m)) (JInt n) msg
                           entries m)
                    = Raise (RuntimeError
                               "dictionary changed size during iteration")).
        { apply IH; [exact Hrest|].
          destruct Hbad as (c & orders & ws & [Heq | Hin] & H1 & H2 & H3).
          - injection Heq as <- <-. rewrite E in H2. discriminate.
          - exists c, orders, ws. repeat split; assumption. }
        destruct (customer_display_loop (List.length (active_orders m))
                    (JInt n) msg entries m) as [[m2 sent2] r].
        exact H.
    + apply IH; [exact Hrest|].
      destruct Hbad as (c & orders & ws & [Heq | Hin] & H1 & H2 & H3).
      * injection Heq as <- <-. rewrite Hw in H1. discriminate.
      * exists c, orders, ws. repeat split; assumption.
Qed.

(** X19. If a customer display watching the order has a closed socket,
    and its client id is not that of a point-of-sale client which the
    broadcast has just dropped, [broadcast_order_update] does not
    complete: dropping the display changes the dictionary of watched sets
    while it is being iterated, the call raises [RuntimeError], and no
    kitchen display is notified. *)
Theorem broadcast_order_update_closed_display
    (m : ConnectionManager) (order_data : dict JSON) (n : Z)
    (c : string) (orders : list Z) (ws : WebSocket) :
  dict_get "id" order_data = Some (JInt n) ->
  In (c, orders) (active_orders m) ->
  set_contains n orders = true ->
  dict_get c (connections m CUSTOMER_DISPLAY) = Some ws ->
  ws_open ws = false ->
  ~ In c (closed_ids (connections m POS)) ->
  snd (broadcast_order_update m order_data)
  = Raise (RuntimeError "dictionary changed size during iteration")
  /\ Forall (fun d => to_type d <> KITCHEN_DISPLAY)
            (snd (fst (broadcast_order_update m order_data))).
Proof.
  intros Hid Hin Hw Hget Hclosed Hpos.
  unfold broadcast_order_update. rewrite Hid.
  set (msg := [("type", JStr "order_update"); ("data", JDict order_data)]).
  rewrite (broadcast_to_type_result m POS msg).
  set (m1 := disconnect_all m POS (closed_ids (connections m POS))).
  assert (Hin1 : In (c, orders) (active_orders m1)).
  { subst m1. rewrite active_orders_disconnect_all.
    apply filter_In. split; [exact Hin|]. cbn [fst].
    apply negb_true_iff.
    destruct (existsb (String.eqb c) (closed_ids (connections m POS)))
      eqn:E; [|reflexivity].
    apply existsb_exists in E. destruct E as (x & Hx & Heq).
    apply String.eqb_eq in Heq. subst x. elim Hpos. exact Hx. }
  assert (Hget1 : dict_get c (connections m1 CUSTOMER_DISPLAY) = Some ws).
  { subst m1. rewrite connections_disconnect_all. exact Hget. }
  assert (Habort :
            snd (customer_display_loop (List.length (active_orders m1))
                   (JInt n) msg (active_orders m1) m1)
            = Raise (RuntimeError "dictionary changed size during iteration")).
  { apply customer_display_loop_aborts; [apply incl_refl|].
    exists c, orders, ws. repeat split; assumption. }
  pose proof (customer_display_loop_type
                (List.length (active_orders m1)) (JInt n) msg
                (active_orders m1) m1) as Htype.
  destruct (customer_display_loop (List.length (active_orders m1))
              (JInt n) msg (active_orders m1) m1) as [[m2 sent_cd] r].
  simpl in Habort, Htype. subst r. simpl. split; [reflexivity|].
  apply Forall_app. split.
  - apply Forall_forall. intros d Hd. apply in_map_iff in Hd.
    destruct Hd as (kv & <- & _). discriminate.
  - eapply Forall_impl; [|exact Htype]. intros d ->. discriminate.
Qed.

(** X22. [broadcast_catalog_update] delivers the update to every
    point-of-sale client and every customer display whose socket is open,
    once each, and to no kitchen display. *)
Theorem broadcast_catalog_update_recipients
    (m : ConnectionManager) (update_data : dict JSON) :
  let msg := [("type", JStr "catalog_update");
              ("data", JDict update_data)] in
  snd (broadcast_catalog_update m update_data)
  = map (deliver POS msg) (open_clients (connections m POS))
    ++ map (deliver CUSTOMER_DISPLAY msg)
           (open_clients (connections m CUSTOMER_DISPLAY)).
Proof.
  intros msg. unfold broadcast_catalog_update. fold msg.
  rewrite !broadcast_to_type_result. cbn [snd].
  rewrite connections_disconnect_all. reflexivity.
Qed.

(** X23. [broadcast_payment_update] never reaches a kitchen display, and
    when the payment carries no order id (or a false one such as 0) it
    reaches the point-of-sale clients only. *)
Theorem broadcast_payment_update_recipients
    (m : ConnectionManager) (payment_data : dict JSON) :
  let msg := [("type", JStr "payment_update");
              ("data", JDict payment_data)] in
  let sent := snd (fst (broadcast_payment_update m payment_data)) in
  Forall (fun d => to_type d <> KITCHEN_DISPLAY) sent
  /\ (match dict_get "order_id" payment_data with
      | Some v => json_truthy v = false
      | None => True
      end ->
      sent = map (deliver POS msg) (open_clients (connections m POS))).
Proof.
  intros msg sent. subst sent. unfold broadcast_payment_update. fold msg.
  rewrite broadcast_to_type_result.
  set (m1 := disconnect_all m POS (closed_ids (connections m POS))).
  assert (Hpos : Forall (fun d => to_type d <> KITCHEN_DISPLAY)
                        (map (deliver POS msg)
                             (open_clients (connections m POS)))).
  { apply Forall_forall. intros d Hd. apply in_map_iff in Hd.
    destruct Hd as (kv & <- & _). discriminate. }
  destruct (dict_get "order_id" payment_data) as [v|].
  - destruct (json_truthy v).
    + pose proof (customer_display_loop_type
                    (List.length (active_orders m1)) v msg
                    (active_orders m1) m1) as Htype.
      destruct (customer_display_loop (List.length (active_orders m1)) v
                  msg (active_orders m1) m1) as [[m2 sent_cd] r].
      simpl in *. split; [|discriminate].
      apply Forall_app. split; [exact Hpos|].
      eapply Forall_impl; [|exact Htype]. intros d ->. discriminate.
    + simpl. split; [exact Hpos | reflexivity].
  - simpl. split; [exact Hpos | reflexivity].
Qed.

Lemma keys_contains {V} (k : string) (d : dict V) :
  existsb (String.eqb k) (map fst d) = dict_contains k d.
Proof.
  unfold dict_contains. induction d as [|[k' w] d IH]; [reflexivity|].
  simpl. rewrite IH, (String.eqb_sym k k'). reflexivity.
Qed.

Lemma dict_without_own_keys {V} (d : dict V) :
  dict_without (map fst d) d = [].
Proof.
  unfold dict_without. apply filter_nothing. intros [k v] Hin.
  simpl. rewrite keys_contains, (in_dict_contains _ _ _ Hin). reflexivity.
Qed.

(** X24. The shutdown loop of the application, which disconnects every
    client of every type, leaves the manager as it was created: no
    connection and no watched set remains. *)
Theorem close_all_connections_empties (m : ConnectionManager) :
  reachable m -> close_all_connections m = ConnectionManager_init.
Proof.
  intros Hm. pose proof (reachable_watchers_connected Hm) as Hw.
  unfold close_all_connections. cbn [fold_left].
  set (m1 := disconnect_all m POS (map fst (connections m POS))).
  assert (E1 : connections m1 CUSTOMER_DISPLAY
               = connections m CUSTOMER_DISPLAY)
    by (subst m1; rewrite connections_disconnect_all; reflexivity).
  rewrite E1.
  set (m2 := disconnect_all m1 CUSTOMER_DISPLAY
               (map fst (connections m CUSTOMER_DISPLAY))).
  assert (E2 : connections m2 KITCHEN_DISPLAY
               = connections m KITCHEN_DISPLAY).
  { subst m2 m1. rewrite !connections_disconnect_all. reflexivity. }
  rewrite E2.
  set (m3 := disconnect_all m2 KITCHEN_DISPLAY
               (map fst (connections m KITCHEN_DISPLAY))).
  assert (Hp : conn_pos m3 = []).
  { change (connections m3 POS = []). subst m3 m2 m1.
    rewrite !connections_disconnect_all. simpl.
    apply dict_without_own_keys. }
  assert (Hc : conn_customer_display m3 = []).
  { change (connections m3 CUSTOMER_DISPLAY = []). subst m3 m2 m1.
    rewrite !connections_disconnect_all. simpl.
    apply dict_without_own_keys. }
  assert (Hk : conn_kitchen_display m3 = []).
  { change (connections m3 KITCHEN_DISPLAY = []). subst m3 m2 m1.
    rewrite !connections_disconnect_all. simpl.
    apply dict_without_own_keys. }
  assert (Ha : active_orders m3 = []).
  { subst m3 m2 m1. rewrite !active_orders_disconnect_all.
    unfold dict_without. rewrite !filter_twice.
    apply filter_nothing. intros [c orders] Hin. simpl.
    rewrite !keys_contains.
    destruct (Hw c (in_dict_contains _ _ _ Hin)) as [t Ht].
    destruct t; simpl in Ht; rewrite Ht; simpl;
      rewrite ?andb_false_r; reflexivity. }
  destruct m3 as [p cd kd ao]. simpl in Hp, Hc, Hk, Ha. subst.
  reflexivity.
Qed.

(** ** Routes *)

Lemma Order_calculate_total_after_fee (o : Order) settings :
  Order_calculate_total (Order_calculate_card_fee o settings) settings
  = Order_calculate_total o settings.
Proof.
  destruct o as [id num sid sname st sub tx fee tot [[|]|] nt sp sr cr ra da
                  rf its ds];
    destruct settings as [[[|] pct mn]|]; reflexivity.
Qed.

Lemma close_order_commit (o : Order) (pm : PaymentMethod) settings :
  let quoted := Order_calculate_total (set_payment_method o (Some pm))
                                      settings in
  o_id quoted = o_id o /\ payment_method quoted = Some pm
  /\ items quoted = items o /\ discounts quoted = discounts o
  /\ subtotal quoted = subtotal o /\ tax quoted = tax o
  /\ total quoted = spec_total quoted.
Proof.
  cbv zeta.
  set (o1 := set_payment_method o (Some pm)).
  pose proof (Order_calculate_total_frame o1 settings) as Hf.
  cbv zeta in Hf.
  pose proof (Order_calculate_total_spec o1 settings) as Hs.
  cbv zeta in Hs.
  repeat split; try exact Hs; rewrite Hf; reflexivity.
Qed.

(** X25. The route [close_order] commits exactly when the order is READY
    and the payment is accepted, a card payment always and a cash payment
    when an amount is tendered that is not below the recomputed total.
    The order is then stored as DONE with the closing time and the payment
    method of the request, its total recomputed by [Order.calculate_total]
    as round(subtotal - total_discount + tax + card_fee, 2), its items,
    discounts, subtotal and tax untouched; in every other case the
    database is left as it was.  The broadcast that follows the commit
    fails on the missing ["id"] key, so the request is never answered with
    success and the registry is left as it is. *)
Theorem close_order_effect
    (db : Database) (m : ConnectionManager) (id : Z) (pd : PaymentData)
    (now : Z) (o : Order) :
  query_order db id = Some o ->
  let pm := pdt_payment_method pd in
  let quoted := Order_calculate_total (set_payment_method o (Some pm))
                                      (query_card_fee_settings db) in
  let closed := set_done_at (set_status quoted DONE) (Some now) in
  let accepted :=
    match pm with
    | CARD => true
    | CASH =>
        match pdt_cash_tendered pd with
        | Some c => negb (flt c (total quoted))
        | None => false
        end
    end in
  let response := fst (fst (close_order db m id pd now)) in
  let db' := snd (fst (close_order db m id pd now)) in
  snd (close_order db m id pd now) = m
  /\ (exists e, response = Raise e)
  /\ (status o = READY -> accepted = true ->
      query_order db' id = Some closed
      /\ status closed = DONE /\ done_at closed = Some now
      /\ payment_method closed = Some pm
      /\ items closed = items o /\ discounts closed = discounts o
      /\ subtotal closed = subtotal o /\ tax closed = tax o
      /\ total closed = spec_total closed)
  /\ (status o <> READY \/ accepted = false -> db' = db).
Proof.
  intros Hq. cbv zeta.
  pose proof (@query_order_id _ db id o Hq) as Hid.
  unfold close_order. rewrite Hq.
  destruct (OrderStatus_eqb (status o) READY) eqn:Est; cbn [negb].
  2:{ cbn [fst snd]. split; [reflexivity|]. split; [eexists; reflexivity|].
      split; [|intros _; reflexivity].
      intros Hr. rewrite Hr in Est. discriminate Est. }
  set (settings := query_card_fee_settings db).
  assert (Ho3 : Order_calculate_total
                  match pdt_payment_method pd with
                  | CASH =>
                      set_payment_method o (Some (pdt_payment_method pd))
                  | CARD =>
                      Order_calculate_card_fee
                        (set_payment_method o (Some (pdt_payment_method pd)))
                        settings
                  end settings
                = Order_calculate_total
                    (set_payment_method o (Some (pdt_payment_method pd)))
                    settings).
  { destruct (pdt_payment_method pd);
      [reflexivity | apply Order_calculate_total_after_fee]. }
  rewrite Ho3. clear Ho3.
  destruct (close_order_commit o (pdt_payment_method pd) settings)
    as (Hoid & Hpm & Hit & Hdi & Hsub & Htax & Htot).
  set (quoted := Order_calculate_total
                   (set_payment_method o (Some (pdt_payment_method pd)))
                   settings) in *.
  set (closed := set_done_at (set_status quoted DONE) (Some now)).
  assert (Hcommit :
            query_order (commit_order db closed) id = Some closed
            /\ status closed = DONE /\ done_at closed = Some now
            /\ payment_method closed = Some (pdt_payment_method pd)
            /\ items closed = items o /\ discounts closed = discounts o
            /\ subtotal closed = subtotal o /\ tax closed = tax o
            /\ total closed = spec_total closed).
  { repeat split; try assumption.
    eapply query_commit_order; [exact Hq|].
    change (o_id quoted = id). rewrite Hoid. exact Hid. }
  assert (Hb : broadcast_order_update m (Order_to_dict closed)
               = (m, [], Raise (KeyError "id"))) by reflexivity.
  destruct (pdt_payment_method pd) eqn:Epm.
  - unfold validate_payment.
    change (String.eqb (PaymentMethod_value CASH) "cash") with true.
    cbv iota.
    destruct (pdt_cash_tendered pd) as [c|] eqn:Ec.
    + destruct (flt c (total quoted)) eqn:Eflt; cbn [negb].
      * cbn [fst snd]. split; [reflexivity|].
        split; [eexists; reflexivity|].
        split; [discriminate | reflexivity].
      * rewrite Hb. cbn [fst snd]. split; [reflexivity|].
        split; [eexists; reflexivity|].
        split; [intros _ _; exact Hcommit|].
        intros [Hn | Hn]; [|discriminate Hn].
        elim Hn. destruct (status o); try discriminate Est; reflexivity.
    + cbn [fst snd]. split; [reflexivity|].
      split; [eexists; reflexivity|].
      split; [discriminate | reflexivity].
  - rewrite Hb. cbn [fst snd]. split; [reflexivity|].
    split; [eexists; reflexivity|].
    split; [intros _ _; exact Hcommit|].
    intros [Hn | Hn]; [|discriminate Hn].
    elim Hn. destruct (status o); try discriminate Est; reflexivity.
Qed.

Lemma setters_keep_amounts (o : Order) (pm : PaymentMethod) (now : Z) :
  let paid := set_done_at (set_status (set_payment_method o (Some pm)) DONE)
                          (Some now) in
  o_id paid = o_id o /\ status paid = DONE /\ done_at paid = Some now
  /\ payment_method paid = Some pm
  /\ subtotal paid = subtotal o /\ tax paid = tax o
  /\ card_fee paid = card_fee o /\ total paid = total o
  /\ discounts paid = discounts o /\ items paid = items o.
Proof. destruct o. cbv zeta. repeat split. Qed.

(** X26. The route [process_payment] commits a cash payment on every order
    that is not DONE - an order that is VOID or REFUNDED as well as one in
    PREP - provided an amount is tendered that is not below the amount of
    the request.  The amount is compared with nothing else, not with the
    total of the order; the order is stored as DONE with the payment time
    and the method CASH, and its subtotal, tax, card fee, total and
    discounts are those stored before.  A request with any other payment
    method, "card" included, and a request on a DONE order leave the
    database as it was; every request is answered with an error. *)
Theorem process_payment_effect
    (db : Database) (payment : PaymentRequest) (internet : bool) (now : Z)
    (o : Order) :
  query_order db (pr_order_id payment) = Some o ->
  let db' := snd (process_payment db payment internet now) in
  let paid := set_done_at (set_status (set_payment_method o (Some CASH)) DONE)
                          (Some now) in
  (status o <> DONE -> pr_payment_method payment = "cash" ->
   forall c, pd_cash_tendered (payment_details payment) = Some c ->
             flt c (pr_amount payment) = false ->
             query_order db' (pr_order_id payment) = Some paid
             /\ status paid = DONE /\ done_at paid = Some now
             /\ payment_method paid = Some CASH
             /\ subtotal paid = subtotal o /\ tax paid = tax o
             /\ card_fee paid = card_fee o /\ total paid = total o
             /\ discounts paid = discounts o)
  /\ (pr_payment_method payment <> "cash" -> db' = db)
  /\ (status o = DONE -> db' = db)
  /\ (exists e, fst (process_payment db payment internet now) = Raise e).
Proof.
  intros Hq. cbv zeta.
  pose proof (@query_order_id _ db (pr_order_id payment) o Hq) as Hid.
  destruct (setters_keep_amounts o CASH now)
    as (H0 & H1 & H2 & H3 & H4 & H5 & H6 & H7 & H8 & _).
  unfold process_payment. rewrite Hq.
  destruct (OrderStatus_eqb (status o) DONE) eqn:Est.
  { cbn [fst snd]. split.
    - intros Hn. elim Hn. destruct (status o); try discriminate Est.
      reflexivity.
    - split; [reflexivity|]. split; [reflexivity|]. eexists. reflexivity. }
  assert (Hnd : status o = DONE -> False)
    by (intros E; rewrite E in Est; discriminate Est).
  destruct (String.eqb (pr_payment_method payment) "card") eqn:Ecard.
  { assert (Hnc : pr_payment_method payment = "cash" -> False).
    { intros Hc. rewrite Hc in Ecard. vm_compute in Ecard.
      discriminate Ecard. }
    destruct internet; cbn [negb];
      [destruct (source_id (payment_details payment))|];
      cbn [fst snd];
      (split; [intros _ Hc; elim (Hnc Hc)|]);
      (split; [reflexivity|]); (split; [reflexivity|]);
      eexists; reflexivity. }
  destruct (String.eqb (pr_payment_method payment) "cash") eqn:Ecash.
  2:{ cbn [fst snd]. split.
      - intros _ Hc. rewrite Hc in Ecash. vm_compute in Ecash.
        discriminate Ecash.
      - split; [reflexivity|]. split; [reflexivity|]. eexists. reflexivity. }
  apply String.eqb_eq in Ecash.
  destruct (pd_cash_tendered (payment_details payment)) as [c0|] eqn:Ec.
  2:{ cbn [fst snd]. split.
      - intros _ _ c Hc. discriminate Hc.
      - split; [intros Hn; elim Hn; exact Ecash|].
        split; [reflexivity|]. eexists. reflexivity. }
  destruct (flt c0 (pr_amount payment)) eqn:Eflt; cbn [fst snd].
  - split.
    + intros _ _ c Hc Hf. injection Hc as <-. rewrite Hf in Eflt.
      discriminate Eflt.
    + split; [intros Hn; elim Hn; exact Ecash|].
      split; [reflexivity|]. eexists. reflexivity.
  - split.
    + intros _ _ c _ _. repeat split; try assumption.
      eapply query_commit_order; [exact Hq|].
      rewrite <- Hid. exact H0.
    + split; [intros Hn; elim Hn; exact Ecash|].
      split; [intros E; elim (Hnd E)|]. eexists. reflexivity.
Qed.



(** X29. The history row written for an order shows the order as it was:
    [OrderHistory.to_dict] of the archived row agrees with
    [Order.to_dict] of the order on the id, number, status, amounts,
    payment method, notes, timestamps, items and discounts. *)
Theorem OrderHistory_snapshot (o : Order) (now : Z) (k : string) :
  In k ["order_id"; "order_number"; "status"; "subtotal"; "tax";
        "card_fee"; "total"; "payment_method"; "notes"; "created_at";
        "ready_at"; "done_at"; "refunded_at"; "items"; "discounts"] ->
  dict_get k (OrderHistory_to_dict
                (insert_history now (OrderHistory_from_order o)))
  = dict_get k (Order_to_dict o).
Proof.
  intros H. simpl in H.
  repeat (destruct H as [<- | H]; [reflexivity|]). contradiction.
Qed.

(** ** Validation of order items *)


End Coverage.

(** * The further properties on concrete inputs *)

Lemma cleanup_database_distinct :
  NoDup (map o_id (tbl_orders cleanup_database)).
Proof. simpl. repeat constructor; simpl; intuition discriminate. Qed.

(** Witness of X3: the only order is from an earlier day. *)
Lemma get_next_order_number_empty_day_witness :
  get_next_order_number
    (database_of [order_at 1 7 DONE (Some CASH) 100]) sample_now = 1.
Proof.
  apply (@get_next_order_number_empty_day Q_PyFloat).
  intros o [<- | []]. reflexivity.
Defined.

(** Witness of X4: the stored numbers are 9, 4 and 5. *)
Lemma get_next_order_number_range_witness :
  1 <= get_next_order_number cleanup_database sample_now <= 99.
Proof.
  apply (@get_next_order_number_range Q_PyFloat).
  intros o [<- | [<- | [<- | []]]]; discriminate.
Defined.

(** Witness of X5: today's orders are numbered 9 and 4. *)
Lemma get_next_order_number_above_today_witness :
  order_number (order_at 1 9 PREP None 970000)
  < get_next_order_number cleanup_database sample_now.
Proof.
  apply (@get_next_order_number_above_today Q_PyFloat cleanup_database
           sample_now).
  - intros o [<- | [<- | [<- | []]]] _; reflexivity.
  - left. reflexivity.
  - discriminate.
Defined.

(** Witness of X8: one of the three orders is archived. *)
Lemma archive_completed_orders_count_witness :
  Z.of_nat (List.length
              (tbl_orders
                 (fst (archive_completed_orders cleanup_database
                         sample_now))))
  + snd (archive_completed_orders cleanup_database sample_now)
  = Z.of_nat (List.length (tbl_orders cleanup_database)).
Proof.
  exact (proj2 (@archive_completed_orders_count Q_PyFloat cleanup_database
                  sample_now cleanup_database_distinct)).
Defined.

(** Witness of X9. *)
Lemma archive_completed_orders_preserves_witness :
  NoDup (map o_id
             (tbl_orders
                (fst (archive_completed_orders cleanup_database
                        sample_now)))).
Proof.
  refine (proj1 (@archive_completed_orders_preserves Q_PyFloat
                   cleanup_database sample_now cleanup_database_distinct _)).
  intros o _ H. exact H.
Defined.

(** Witness of X10: the two active orders get the numbers 1 and 2. *)
Lemma reset_order_numbers_numbering_witness :
  let active :=
    filter (fun o => is_active (status o))
           (tbl_orders (fst (reset_order_numbers cleanup_database
                               sample_now))) in
  Permutation (map order_number active)
              (map Z.of_nat (seq 1 (List.length active))).
Proof.
  exact (@reset_order_numbers_numbering Q_PyFloat cleanup_database
           sample_now cleanup_database_distinct).
Defined.

(** Witness of X11: order 2, created first, is numbered before order 1. *)
Lemma reset_order_numbers_by_age_witness :
  order_number (set_order_number (order_at 2 4 READY None 960000) 1)
  < order_number (set_order_number (order_at 1 9 PREP None 970000) 2).
Proof.
  apply (@reset_order_numbers_by_age Q_PyFloat cleanup_database sample_now
           cleanup_database_distinct).
  - right. left. reflexivity.
  - left. reflexivity.
  - reflexivity.
  - reflexivity.
  - reflexivity.
Defined.

(** Witness of X12. *)
Lemma reset_order_numbers_frame_witness :
  tbl_order_history (fst (reset_order_numbers cleanup_database sample_now))
  = tbl_order_history
      (fst (archive_completed_orders cleanup_database sample_now)).
Proof.
  exact (proj2 (proj2 (@reset_order_numbers_frame Q_PyFloat cleanup_database
                         sample_now cleanup_database_distinct))).
Defined.

(** Witness of X13: the second step runs one second after the first. *)
Lemma daily_order_cleanup_live_orders_witness :
  tbl_orders (fst (daily_order_cleanup cleanup_database sample_now
                     (sample_now + 1)))
  = tbl_orders (fst (reset_order_numbers cleanup_database (sample_now + 1))).
Proof.
  apply (@daily_order_cleanup_live_orders Q_PyFloat). discriminate.
Defined.

(** Witness of X14: a first client on a fresh manager. *)
Lemma connect_then_disconnect_witness :
  disconnect
    (connect ConnectionManager_init {| ws_open := true |} POS "pos-1")
    POS "pos-1"
  = ConnectionManager_init.
Proof.
  apply connect_then_disconnect; reflexivity.
Defined.

(** Witness of X18: a terminal and a kitchen display, both open. *)
Lemma broadcast_order_update_all_open_witness :
  fst (fst (broadcast_order_update sample_manager prep_order_data))
  = sample_manager.
Proof.
  rewrite (@broadcast_order_update_all_open Q_PyFloat sample_manager
             prep_order_data 1).
  - reflexivity.
  - intros t. destruct t; repeat constructor.
  - reflexivity.
Defined.

(** Witness of X19: the display "cd-1" watches order 1 and has closed;
    the only terminal is open. *)
Lemma broadcast_order_update_closed_display_witness :
  snd (broadcast_order_update stale_display_manager prep_order_data)
  = Raise (RuntimeError "dictionary changed size during iteration").
Proof.
  refine (proj1 (@broadcast_order_update_closed_display Q_PyFloat
                   stale_display_manager prep_order_data 1 "cd-1" [1]
                   {| ws_open := false |} _ _ _ _ _ _)).
  - reflexivity.
  - right. left. reflexivity.
  - reflexivity.
  - reflexivity.
  - reflexivity.
  - intros H. exact H.
Defined.

(** Witness of X21: the status entry of a PREP order is "prep". *)
Lemma broadcast_order_update_kitchen_witness :
  Forall (fun d => to_type d <> KITCHEN_DISPLAY)
         (snd (fst (broadcast_order_update sample_manager prep_order_data))).
Proof.
  apply (@broadcast_order_update_kitchen Q_PyFloat). reflexivity.
Defined.

(** Witness of X24. *)
Lemma close_all_connections_empties_witness :
  close_all_connections sample_manager = ConnectionManager_init.
Proof.
  apply (@close_all_connections_empties Q_PyFloat).
  apply reach_connect, reach_connect, reach_init.
Defined.

(** Witness of X25: a READY order closed with 20.00 in cash is stored as
    DONE with its total of 10.80. *)
Lemma close_order_effect_witness :
  let o := order_at 1 5 READY None 960000 in
  let db := database_of [o] in
  let db' := snd (fst (close_order db sample_manager 1 cash_closing
                         sample_now)) in
  let closed :=
    set_done_at
      (set_status
         (Order_calculate_total (set_payment_method o (Some CASH))
                                (query_card_fee_settings db))
         DONE)
      (Some sample_now) in
  query_order db' 1 = Some closed /\ total closed = usd 1080.
Proof.
  intros o db db' closed.
  split; [|reflexivity].
  exact (proj1 (proj1 (proj2 (proj2 (@close_order_effect Q_PyFloat db
                                       sample_manager 1 cash_closing
                                       sample_now o eq_refl)))
                      eq_refl eq_refl)).
Defined.

(** Witness of X26: 1.00 tendered for a request of 1.00 settles a voided
    order whose total is 10.80. *)
Lemma process_payment_effect_witness :
  let o := order_at 1 5 VOID None 960000 in
  let db := database_of [o] in
  let db' := snd (process_payment db small_cash_payment true sample_now) in
  query_order db' 1
  = Some (set_done_at (set_status (set_payment_method o (Some CASH)) DONE)
                      (Some sample_now)).
Proof.
  intros o db db'.
  refine (proj1 (proj1 (@process_payment_effect Q_PyFloat db
                          small_cash_payment true sample_now o eq_refl)
                       _ eq_refl (usd 100) eq_refl eq_refl)).
  discriminate.
Defined.

(** Witness of X29: the total of an archived order. *)
Lemma OrderHistory_snapshot_witness :
  let o := order_at 3 5 DONE (Some CASH) 100 in
  dict_get "total"
    (OrderHistory_to_dict
       (insert_history sample_now (OrderHistory_from_order o)))
  = dict_get "total" (Order_to_dict o).
Proof.
  intros o.
  apply (@OrderHistory_snapshot Q_PyFloat o sample_now "total").
  do 6 right. left. reflexivity.
Defined.
